(** * TradingView to MEXC relay (app.py): signing, dispatch and routing

    A shallow embedding of [src/app.py].  Python values are modelled by the
    data the program reads from them, the two libraries the signing code
    calls ([hashlib.sha256], [hmac]) are written out so that signatures can
    be evaluated, and the stateful part (the dict objects that are passed by
    reference, the global [trader], the calls made to [requests] and those
    of them that went out) is threaded through a small state-and-exception
    monad.  Handlers run to their end one after another, except where the
    prologue [if not trader: initialize_trader()] is interleaved between
    threads. *)

From Stdlib Require Import String Ascii NArith ZArith Lia DecimalString.
From stdpp Require Import base list sorting.

Local Open Scope N_scope.

(** ** Python text *)

(** A Python [str] is a sequence of code points (0 .. 0x10FFFF, lone
    surrogates included); [lit] reads an ASCII literal of the source. *)
Definition str := list N.

Definition lit (s : string) : str :=
  map N_of_ascii (list_ascii_of_string s).

(** [s.encode('utf-8')]: [None] stands for [UnicodeEncodeError], raised on a
    surrogate code point. *)
Definition utf8_char (c : N) : option (list N) :=
  if c <? 0x80 then Some [c]
  else if c <? 0x800 then Some [0xC0 + c / 64; 0x80 + c mod 64]
  else if (0xD800 <=? c) && (c <? 0xE000) then None
  else if c <? 0x10000 then
    Some [0xE0 + c / 4096; 0x80 + (c / 64) mod 64; 0x80 + c mod 64]
  else if c <? 0x110000 then
    Some [0xF0 + c / 262144; 0x80 + (c / 4096) mod 64;
          0x80 + (c / 64) mod 64; 0x80 + c mod 64]
  else None.

Fixpoint encode_utf8 (s : str) : option (list N) :=
  match s with
  | [] => Some []
  | c :: s' =>
      match utf8_char c, encode_utf8 s' with
      | Some b, Some bs => Some (b ++ bs)
      | _, _ => None
      end
  end.

(** Code points that [encode] accepts. *)
Definition encodable_char (c : N) : bool :=
  (c <? 0x110000) && negb ((0xD800 <=? c) && (c <? 0xE000)).

Definition encodable (s : str) : bool := forallb encodable_char s.

(** [a < b] and [a == b] on [str]: lexicographic on code points. *)
Fixpoint str_compare (a b : str) : comparison :=
  match a, b with
  | [], [] => Eq
  | [], _ :: _ => Lt
  | _ :: _, [] => Gt
  | x :: a', y :: b' =>
      match x ?= y with
      | Eq => str_compare a' b'
      | c => c
      end
  end.

Definition str_ltb (a b : str) : bool :=
  match str_compare a b with Lt => true | _ => false end.

Definition str_eqb (a b : str) : bool :=
  match str_compare a b with Eq => true | _ => false end.

(** [sep.join(parts)] *)
Fixpoint join (sep : str) (parts : list str) : str :=
  match parts with
  | [] => []
  | [p] => p
  | p :: rest => p ++ sep ++ join sep rest
  end.

(** ** hashlib.sha256 and hmac (FIPS 180-4, RFC 2104) on byte lists *)

Module SHA256.

Definition wrap (x : N) : N := x mod 2 ^ 32.
Definition add32 (x y : N) : N := wrap (x + y).
Definition rotr (n x : N) : N :=
  N.lor (N.shiftr x n) (wrap (N.shiftl x (32 - n))).
Definition not32 (x : N) : N := N.lxor x (2 ^ 32 - 1).

Definition Ch (x y z : N) : N := N.lxor (N.land x y) (N.land (not32 x) z).
Definition Maj (x y z : N) : N :=
  N.lxor (N.lxor (N.land x y) (N.land x z)) (N.land y z).
Definition Sum0 (x : N) : N := N.lxor (N.lxor (rotr 2 x) (rotr 13 x)) (rotr 22 x).
Definition Sum1 (x : N) : N := N.lxor (N.lxor (rotr 6 x) (rotr 11 x)) (rotr 25 x).
Definition sig0 (x : N) : N := N.lxor (N.lxor (rotr 7 x) (rotr 18 x)) (N.shiftr x 3).
Definition sig1 (x : N) : N := N.lxor (N.lxor (rotr 17 x) (rotr 19 x)) (N.shiftr x 10).

(** The round constants and the initial hash value are the first 32 bits
    of the fractional parts of the cube roots (square roots) of the first
    primes; they are computed here rather than tabulated. *)
Definition is_prime (n : nat) : bool :=
  forallb (fun d => negb (Nat.eqb (n mod d) 0)) (seq 2 (n - 2)).

Definition primes64 : list N :=
  Eval vm_compute in map N.of_nat (filter is_prime (seq 2 310)).

Definition cube_root (n : N) : N :=
  fold_left
    (fun r b => let r' := r + 2 ^ N.of_nat b in
                if r' * r' * r' <=? n then r' else r)
    (rev (seq 0 36)) 0.

Definition K : list N :=
  Eval vm_compute in map (fun p => wrap (cube_root (p * 2 ^ 96))) primes64.

Definition H0 : list N :=
  Eval vm_compute in map (fun p => wrap (N.sqrt (p * 2 ^ 64))) (firstn 8 primes64).

(** Big-endian bytes of a number, and back. *)
Fixpoint be_bytes (n : nat) (x : N) : list N :=
  match n with
  | O => []
  | S n' => (x / 256 ^ N.of_nat n') mod 256 :: be_bytes n' x
  end.

Definition be_word (bs : list N) : N :=
  fold_left (fun acc b => acc * 256 + b) bs 0.

Fixpoint words (n : nat) (bs : list N) : list N :=
  match n with
  | O => []
  | S n' => be_word (firstn 4 bs) :: words n' (skipn 4 bs)
  end.

Fixpoint blocks (n : nat) (bs : list N) : list (list N) :=
  match n with
  | O => []
  | S n' => words 16 (firstn 64 bs) :: blocks n' (skipn 64 bs)
  end.

Definition pad (msg : list N) : list N :=
  let len := length msg in
  let zeros := ((64 - (len + 9) mod 64) mod 64)%nat in
  msg ++ [0x80] ++ repeat 0 zeros ++ be_bytes 8 (8 * N.of_nat len).

(** Message schedule: [win] holds the sixteen most recent words. *)
Fixpoint schedule (n : nat) (win : list N) : list N :=
  match n, win with
  | S n', w0 :: rest =>
      let w := add32 (add32 (sig1 (nth 13 rest 0)) (nth 8 rest 0))
                     (add32 (sig0 (nth 0 rest 0)) w0) in
      w :: schedule n' (rest ++ [w])
  | _, _ => []
  end.

Record state := State { sa : N; sb : N; sc : N; sd : N;
                        se : N; sf : N; sg : N; sh : N }.

Definition round (s : state) (kw : N * N) : state :=
  let t1 := add32 (add32 (add32 (sh s) (Sum1 (se s)))
                         (add32 (Ch (se s) (sf s) (sg s)) (fst kw))) (snd kw) in
  let t2 := add32 (Sum0 (sa s)) (Maj (sa s) (sb s) (sc s)) in
  State (add32 t1 t2) (sa s) (sb s) (sc s) (add32 (sd s) t1) (se s) (sf s) (sg s).

Definition compress (s : state) (block : list N) : state :=
  let w := block ++ schedule 48 block in
  let r := fold_left round (combine K w) s in
  State (add32 (sa s) (sa r)) (add32 (sb s) (sb r))
        (add32 (sc s) (sc r)) (add32 (sd s) (sd r))
        (add32 (se s) (se r)) (add32 (sf s) (sf r))
        (add32 (sg s) (sg r)) (add32 (sh s) (sh r)).

Definition init : state :=
  State (nth 0 H0 0) (nth 1 H0 0) (nth 2 H0 0) (nth 3 H0 0)
        (nth 4 H0 0) (nth 5 H0 0) (nth 6 H0 0) (nth 7 H0 0).

Definition output (s : state) : list N :=
  be_bytes 4 (sa s) ++ be_bytes 4 (sb s) ++ be_bytes 4 (sc s) ++
  be_bytes 4 (sd s) ++ be_bytes 4 (se s) ++ be_bytes 4 (sf s) ++
  be_bytes 4 (sg s) ++ be_bytes 4 (sh s).

Definition digest (msg : list N) : list N :=
  let p := pad msg in
  output (fold_left compress (blocks (length p / 64) p) init).

End SHA256.

(** [hmac.new(key, msg, hashlib.sha256).digest()] *)
Definition hmac_sha256 (key msg : list N) : list N :=
  let k := if (64 <? length key)%nat then SHA256.digest key else key in
  let k := k ++ repeat 0 (64 - length k) in
  SHA256.digest (map (N.lxor 0x5c) k ++
                 SHA256.digest (map (N.lxor 0x36) k ++ msg)).

(** [.hexdigest()]: two lowercase hexadecimal digits per byte. *)
Definition hex_digit (d : N) : N :=
  if d <? 10 then 48 + d else 87 + d.

Definition hexdigest (bs : list N) : str :=
  flat_map (fun b => [hex_digit ((b / 16) mod 16); hex_digit (b mod 16)]) bs.
(** ** Python values *)

(** The scalar values that reach the signing code: [None], [bool], [int],
    [float] and [str].  A float is carried by its [repr], which is what the
    program reads from it. *)
Inductive scalar :=
| SNone
| SBool (b : bool)
| SInt (z : Z)
| SFloat (repr : str)
| SStr (s : str).

(** A parsed JSON document ([response.json()]); [JAtom SNone] is [None]. *)
#[warnings="-register-all"] Inductive json :=
| JAtom (a : scalar)
| JArr (items : list json)
| JObj (members : list (str * json)).

(** [str(v)], which is also what an f-string field [{v}] inserts. *)
Definition py_str (v : scalar) : str :=
  match v with
  | SNone => lit "None"
  | SBool true => lit "True"
  | SBool false => lit "False"
  | SInt z => lit (NilZero.string_of_int (Z.to_int z))
  | SFloat repr => repr
  | SStr s => s
  end.

(** [v == s] for a [str] [s], as [action in [...]] evaluates it. *)
Definition eq_str (v : scalar) (s : str) : bool :=
  match v with
  | SStr s' => str_eqb s' s
  | _ => false
  end.

Definition is_in (v : scalar) (choices : list str) : bool :=
  existsb (eq_str v) choices.

(** Truth value of a scalar and of a JSON document ([if result:]). *)
Definition scalar_truthy (v : scalar) : bool :=
  match v with
  | SNone => false
  | SBool b => b
  | SInt z => negb (z =? 0)%Z
  | SFloat repr => negb (str_eqb repr (lit "0.0") || str_eqb repr (lit "-0.0"))
  | SStr s => negb (str_eqb s [])
  end.

Definition truthy (j : json) : bool :=
  match j with
  | JAtom a => scalar_truthy a
  | JArr [] => false
  | JArr (_ :: _) => true
  | JObj [] => false
  | JObj (_ :: _) => true
  end.

(** ** dict: an insertion-ordered mapping with [str] keys *)

Definition item := (str * scalar)%type.
Definition dict := list item.

Fixpoint dict_get (k : str) (d : dict) : option scalar :=
  match d with
  | [] => None
  | (k', v) :: d' => if str_eqb k' k then Some v else dict_get k d'
  end.

(** [d[k] = v]: an existing key keeps its place, a new one goes last. *)
Fixpoint dict_set (k : str) (v : scalar) (d : dict) : dict :=
  match d with
  | [] => [(k, v)]
  | (k', v') :: d' =>
      if str_eqb k' k then (k', v) :: d' else (k', v') :: dict_set k v d'
  end.

(** [d.get(k, default)] *)
Definition dict_get_default (k : str) (default : scalar) (d : dict) : scalar :=
  match dict_get k d with
  | Some v => v
  | None => default
  end.

(** A dict never holds a key twice. *)
Definition dict_ok (d : dict) : Prop := NoDup (map fst d).

(** [sorted(params.items())].  Python orders the (key, value) pairs
    lexicographically and only ever asks [<]; two items of one dict differ
    in their keys, so every comparison is settled by the keys.  The sort is
    stable. *)
Definition item_ltb (a b : item) : bool := str_ltb (fst a) (fst b).

Fixpoint insort (x : item) (l : list item) : list item :=
  match l with
  | [] => [x]
  | y :: l' => if item_ltb y x then y :: insort x l' else x :: y :: l'
  end.

Fixpoint sorted (l : list item) : list item :=
  match l with
  | [] => []
  | x :: l' => insort x (sorted l')
  end.

(** ** The exchange client *)

Inductive exn :=
| UnicodeEncodeError
| UnboundLocalError
| ConnectionError
| HTTPError (status : Z)
| JSONDecodeError
| AttributeError
| BadRequest (description : str)
| InvalidRequest.

Inductive outcome (A : Type) :=
| Ok (a : A)
| Raise (e : exn).
Arguments Ok {A} a.
Arguments Raise {A} e.

Definition MEXC_BASE_URL : str := lit "https://api.mexc.com".

Record MEXCTrader := {
  api_key : str;
  secret_key : str;
  base_url : str
}.

(** [MEXCTrader.__init__] *)
Definition MEXCTrader_init (api_key secret_key : str) : MEXCTrader :=
  {| api_key := api_key; secret_key := secret_key; base_url := MEXC_BASE_URL |}.

(** f"{k}={v}" *)
Definition key_value (kv : item) : str :=
  fst kv ++ lit "=" ++ py_str (snd kv).

(** The local [query_string] of [_generate_signature] (lines 27-28). *)
Definition query_string (params : dict) (timestamp : scalar) : str :=
  join (lit "&") (map key_value (sorted params))
    ++ lit "&timestamp=" ++ py_str timestamp.

(** [MEXCTrader._generate_signature] *)
Definition _generate_signature (self : MEXCTrader) (params : dict)
    (timestamp : scalar) : outcome str :=
  let query_string := query_string params timestamp in
  match encode_utf8 (secret_key self), encode_utf8 query_string with
  | Some key, Some msg => Ok (hexdigest (hmac_sha256 key msg))
  | _, _ => Raise UnicodeEncodeError
  end.

(** *** The world the client runs in *)

(** What [requests] is asked to do: [requests.get(url, params=..., headers=...)]
    carries the mapping as the query string, [requests.post(url, json=...,
    headers=...)] as a JSON body. *)
Inductive http_call :=
| RequestsGet (url : str) (params : dict) (headers : list (str * str))
| RequestsPost (url : str) (json_body : dict) (headers : list (str * str)).

(** What becomes of a call handed to [requests]: the library refuses it
    before anything is sent and raises (a NaN in a JSON body, a header value
    with CR, LF or leading whitespace, ...); the request goes out and no
    response comes back (the call raises); or a response comes back, with
    its status code and its body, [None] when the body is not JSON. *)
Inductive http_reply :=
| NoReply
| Reply (status_code : Z) (body : option json)
| Refused.

(** The surroundings of the process: the two credentials read at import
    time (lines 15-16), the clock ([clock_ms n] is what
    [int(time.time() * 1000)] yields at the n-th reading of the clock,
    [clock_s n] what [int(time.time())] yields), and what the [requests]
    library and the exchange behind it do with each call. *)
Record environment := {
  MEXC_API_KEY : option str;
  MEXC_SECRET_KEY : option str;
  clock_ms : nat -> Z;
  clock_s : nat -> Z;
  exchange : http_call -> http_reply
}.

(** The operations of the client, as recorded on entry (a ghost trace). *)
Inductive client_call :=
| PlaceOrder (symbol : scalar) (side : str) (quantity : scalar) (order_type : str)
| GetAccountInfo
| CancelAllOrders (symbol : scalar).

(** Program state: the dict objects (a reference is an index into [heap]),
    the global [trader], the calls handed to [requests] so far (oldest
    first), the number of clock readings so far, the client operations
    entered, and those of the calls that went out on the wire. *)
Record world := {
  heap : list dict;
  trader : option MEXCTrader;
  sent : list http_call;
  ticks : nat;
  entered : list client_call;
  wire : list http_call
}.

Definition ref := nat.

Definition M (A : Type) : Type := world -> outcome A * world.

Definition ret {A} (a : A) : M A := fun w => (Ok a, w).

Definition raise {A} (e : exn) : M A := fun w => (Raise e, w).

Definition bind {A B} (m : M A) (k : A -> M B) : M B :=
  fun w =>
    match m w with
    | (Ok a, w') => k a w'
    | (Raise e, w') => (Raise e, w')
    end.

(** [try: m  except Exception as e: handler e] *)
Definition try_except {A} (m : M A) (handler : exn -> M A) : M A :=
  fun w =>
    match m w with
    | (Ok a, w') => (Ok a, w')
    | (Raise e, w') => handler e w'
    end.

Definition lift {A} (o : outcome A) : M A := fun w => (o, w).

Notation "'let*' x ':=' m 'in' k" := (bind m (fun x => k))
  (at level 10, x name, m at level 100, k at level 200).

Definition with_heap (h : list dict) (w : world) : world :=
  {| heap := h; trader := trader w; sent := sent w;
     ticks := ticks w; entered := entered w; wire := wire w |}.

Definition with_trader (t : option MEXCTrader) (w : world) : world :=
  {| heap := heap w; trader := t; sent := sent w;
     ticks := ticks w; entered := entered w; wire := wire w |}.

Definition with_sent (s : list http_call) (w : world) : world :=
  {| heap := heap w; trader := trader w; sent := s;
     ticks := ticks w; entered := entered w; wire := wire w |}.

Definition with_ticks (n : nat) (w : world) : world :=
  {| heap := heap w; trader := trader w; sent := sent w;
     ticks := n; entered := entered w; wire := wire w |}.

Definition with_entered (cs : list client_call) (w : world) : world :=
  {| heap := heap w; trader := trader w; sent := sent w;
     ticks := ticks w; entered := cs; wire := wire w |}.

Definition with_wire (cs : list http_call) (w : world) : world :=
  {| heap := heap w; trader := trader w; sent := sent w;
     ticks := ticks w; entered := entered w; wire := cs |}.

(** The dict behind a reference. *)
Definition object (p : ref) (w : world) : dict :=
  match heap w !! p with
  | Some d => d
  | None => []
  end.

(** A dict display [{...}] creates a new object. *)
Definition new_dict (d : dict) : M ref :=
  fun w => (Ok (length (heap w)), with_heap (heap w ++ [d]) w).

Definition deref (p : ref) : M dict :=
  fun w => (Ok (object p w), w).

(** [p[k] = v] on the object itself. *)
Definition setitem (p : ref) (k : str) (v : scalar) : M unit :=
  fun w => (Ok tt, with_heap (<[p := dict_set k v (object p w)]> (heap w)) w).

(** [int(time.time() * 1000)] *)
Definition now_ms (E : environment) : M Z :=
  fun w => (Ok (clock_ms E (ticks w)), with_ticks (S (ticks w)) w).

(** [int(time.time())] *)
Definition now_s (E : environment) : M Z :=
  fun w => (Ok (clock_s E (ticks w)), with_ticks (S (ticks w)) w).

(** [requests.get] / [requests.post]: the call is made.  The library
    refuses it and raises with nothing sent, or the request goes out and
    the call either raises or hands back the response. *)
Definition requests (E : environment) (c : http_call) : M (Z * option json) :=
  fun w =>
    let made := with_sent (sent w ++ [c]) w in
    match exchange E c with
    | Refused => (Raise InvalidRequest, made)
    | NoReply => (Raise ConnectionError, with_wire (wire w ++ [c]) made)
    | Reply status body => (Ok (status, body), with_wire (wire w ++ [c]) made)
    end.

(** [response.raise_for_status()]: raises on 4xx and 5xx. *)
Definition raise_for_status (response : Z * option json) : M unit :=
  if (400 <=? fst response)%Z && (fst response <? 600)%Z
  then raise (HTTPError (fst response))
  else ret tt.

(** [response.json()] *)
Definition response_json (response : Z * option json) : M json :=
  match snd response with
  | Some j => ret j
  | None => raise JSONDecodeError
  end.

Definition enter (c : client_call) : M unit :=
  fun w => (Ok tt, with_entered (entered w ++ [c]) w).

Definition request_headers (self : MEXCTrader) : list (str * str) :=
  [(lit "X-MEXC-APIKEY", api_key self);
   (lit "Content-Type", lit "application/json")].

(** The [try] statement of [_send_request] (lines 53-63).  The local
    [response] is unbound until one of the two branches assigns it.
    Logging is left out. *)
Definition attempt (E : environment) (method url : str) (params : ref)
    (headers : list (str * str)) : M json :=
  try_except
    (let* response :=
       if str_eqb method (lit "GET") then
         let* d := deref params in
         let* r := requests E (RequestsGet url d headers) in ret (Some r)
       else if str_eqb method (lit "POST") then
         let* d := deref params in
         let* r := requests E (RequestsPost url d headers) in ret (Some r)
       else ret None in
     match response with
     | None => raise UnboundLocalError
     | Some response =>
         let* _ := raise_for_status response in
         response_json response
     end)
    (fun e => ret (JAtom SNone)).

(** [MEXCTrader._send_request].  [params] is a reference to the caller's
    dict, or [None]. *)
Definition _send_request (E : environment) (self : MEXCTrader)
    (method endpoint : str) (params : option ref) : M json :=
  let* params := match params with
                 | None => new_dict []
                 | Some p => ret p
                 end in
  let* now := now_ms E in
  let timestamp := SStr (py_str (SInt now)) in
  let* _ := setitem params (lit "timestamp") timestamp in
  let headers := request_headers self in
  let* d := deref params in
  let* signature := lift (_generate_signature self d timestamp) in
  let* _ := setitem params (lit "signature") (SStr signature) in
  let url := base_url self ++ endpoint in
  attempt E method url params headers.

(** The dict display of [place_order] (lines 67-72). *)
Definition place_order_params (symbol : scalar) (side : str)
    (quantity : scalar) (order_type : str) : dict :=
  [(lit "symbol", symbol);
   (lit "side", SStr side);
   (lit "type", SStr order_type);
   (lit "quoteOrderQty", SStr (py_str quantity))].

(** [MEXCTrader.place_order] *)
Definition place_order (E : environment) (self : MEXCTrader)
    (symbol : scalar) (side : str) (quantity : scalar) (order_type : str) : M json :=
  let* _ := enter (PlaceOrder symbol side quantity order_type) in
  let* params := new_dict (place_order_params symbol side quantity order_type) in
  _send_request E self (lit "POST") (lit "/api/v3/order") (Some params).

(** [MEXCTrader.get_account_info] *)
Definition get_account_info (E : environment) (self : MEXCTrader) : M json :=
  let* _ := enter GetAccountInfo in
  _send_request E self (lit "GET") (lit "/api/v3/account") None.

(** [MEXCTrader.cancel_all_orders] *)
Definition cancel_all_orders (E : environment) (self : MEXCTrader)
    (symbol : scalar) : M json :=
  let* _ := enter (CancelAllOrders symbol) in
  let* params := new_dict [(lit "symbol", symbol)] in
  _send_request E self (lit "DELETE") (lit "/api/v3/openOrders") (Some params).

(** ** The routes *)

(** The text of an error reply: a literal of the source, or [str(e)]. *)
Inductive error_text :=
| Text (s : str)
| StrOf (e : exn).

(** The JSON documents the routes answer with. *)
Inductive reply_body :=
| ErrorBody (error : error_text)
| TradeSuccess (message : str) (mexc_response : json)
| TestSuccess (message : str) (account_info : json)
| StatusError (message : str)
| StatusRunning (mexc_connected : bool) (timestamp : Z)
    (api_key_configured secret_key_configured : bool)
| Home
| InternalServerError.

Record response := {
  status : Z;
  payload : reply_body
}.

(** What [request.get_json()] gives for the body of a /webhook request: it
    raises, or it returns a document.  A document that is a JSON object is
    carried with its fields, whose values are taken at the scalar JSON
    types (null, booleans, numbers, strings); any other document has no
    [get]. *)
Inductive webhook_body :=
| BodyUnreadable (e : exn)
| BodyOther
| BodyObject (fields : dict).

Definition get_json (body : webhook_body) : M webhook_body :=
  match body with
  | BodyUnreadable e => raise e
  | _ => ret body
  end.

(** [data.get(key, default)] *)
Definition data_get (data : webhook_body) (key : str) (default : scalar) : M scalar :=
  match data with
  | BodyObject fields => ret (dict_get_default key default fields)
  | _ => raise AttributeError
  end.

Definition get_trader : M (option MEXCTrader) :=
  fun w => (Ok (trader w), w).

Definition set_trader (t : MEXCTrader) : M unit :=
  fun w => (Ok tt, with_trader (Some t) w).

(** Truth value of a credential: set and not empty. *)
Definition configured (c : option str) : bool :=
  match c with
  | Some (_ :: _) => true
  | _ => false
  end.

(** [initialize_trader] *)
Definition initialize_trader (E : environment) : M bool :=
  match MEXC_API_KEY E, MEXC_SECRET_KEY E with
  | Some k, Some s =>
      if configured (Some k) && configured (Some s) then
        let* _ := set_trader (MEXCTrader_init k s) in ret true
      else ret false
  | _, _ => ret false
  end.

(** [if not trader: initialize_trader()], then the global as it is now. *)
Definition ensure_trader (E : environment) : M (option MEXCTrader) :=
  let* t := get_trader in
  match t with
  | Some _ => ret t
  | None => let* _ := initialize_trader E in get_trader
  end.

Definition msg_long (symbol quantity : scalar) : str :=
  lit "LONG a" ++ [231; 305] ++ lit "ld" ++ [305] ++ lit ": "
    ++ py_str symbol ++ lit " - " ++ py_str quantity ++ lit " USDT".

Definition msg_sell (symbol quantity : scalar) : str :=
  lit "SELL a" ++ [231; 305] ++ lit "ld" ++ [305] ++ lit ": "
    ++ py_str symbol ++ lit " - " ++ py_str quantity ++ lit " USDT".

Definition msg_close (symbol : scalar) : str :=
  lit "Pozisyon kapat" ++ [305] ++ lit "ld" ++ [305] ++ lit ": " ++ py_str symbol.

(** The end of [webhook] (lines 151-159): [if result: ... else: ...]. *)
Definition report (result : json) (message : str) : response :=
  if truthy result then
    {| status := 200; payload := TradeSuccess message result |}
  else
    {| status := 500; payload := ErrorBody (Text (lit "Trade failed")) |}.

(** [webhook]: the handler of POST /webhook.  Logging is left out. *)
Definition webhook (E : environment) (body : webhook_body) : M response :=
  try_except
    (let* data := get_json body in
     let* t := ensure_trader E in
     match t with
     | None =>
         ret {| status := 500;
                payload := ErrorBody (Text (lit "MEXC trader not initialized")) |}
     | Some trader =>
         let* action := data_get data (lit "action") SNone in
         let* symbol := data_get data (lit "symbol") (SStr (lit "BTCUSDT")) in
         let* quantity := data_get data (lit "quantity") (SInt 10) in
         let* outcome :=
           if is_in action [lit "buy"; lit "long"] then
             let* result := place_order E trader symbol (lit "BUY") quantity (lit "MARKET") in
             ret (Some (result, msg_long symbol quantity))
           else if is_in action [lit "sell"; lit "short"] then
             let* result := place_order E trader symbol (lit "SELL") quantity (lit "MARKET") in
             ret (Some (result, msg_sell symbol quantity))
           else if is_in action [lit "close_long"; lit "close_short"; lit "close"] then
             let* result := cancel_all_orders E trader symbol in
             ret (Some (result, msg_close symbol))
           else ret None in
         match outcome with
         | None =>
             ret {| status := 400; payload := ErrorBody (Text (lit "Invalid action")) |}
         | Some (result, message) => ret (report result message)
         end
     end)
    (fun e => ret {| status := 500; payload := ErrorBody (StrOf e) |}).

Definition is_none (j : json) : bool :=
  match j with
  | JAtom SNone => true
  | _ => false
  end.

Definition is_some {A} (o : option A) : bool :=
  match o with
  | Some _ => true
  | None => false
  end.

(** [status]: the handler of GET /status. *)
Definition status_route (E : environment) : M response :=
  let* t := ensure_trader E in
  match t with
  | None =>
      ret {| status := 200; payload := StatusError (lit "Trader not initialized") |}
  | Some trader =>
      let* account_info := get_account_info E trader in
      let* now := now_s E in
      ret {| status := 200;
             payload := StatusRunning (negb (is_none account_info)) now
                          (is_some (MEXC_API_KEY E)) (is_some (MEXC_SECRET_KEY E)) |}
  end.

Definition msg_test_ok : str :=
  lit "MEXC ba" ++ [287] ++ lit "lant" ++ [305] ++ lit "s" ++ [305]
    ++ lit " ba" ++ [351] ++ lit "ar" ++ [305] ++ lit "l" ++ [305] ++ lit "!".

Definition msg_test_failed : str :=
  lit "MEXC ba" ++ [287] ++ lit "lant" ++ [305] ++ lit "s" ++ [305]
    ++ lit " ba" ++ [351] ++ lit "ar" ++ [305] ++ lit "s" ++ [305] ++ lit "z!".

(** [test_trade]: the handler of POST /test. *)
Definition test_trade (E : environment) : M response :=
  let* t := ensure_trader E in
  match t with
  | None =>
      ret {| status := 500; payload := ErrorBody (Text (lit "Trader not initialized")) |}
  | Some trader =>
      try_except
        (let* account_info := get_account_info E trader in
         if truthy account_info then
           ret {| status := 200; payload := TestSuccess msg_test_ok account_info |}
         else
           ret {| status := 500; payload := ErrorBody (Text msg_test_failed) |})
        (fun e => ret {| status := 500; payload := ErrorBody (StrOf e) |})
  end.

(** [home]: the handler of GET /. *)
Definition home : M response :=
  ret {| status := 200; payload := Home |}.

Inductive request :=
| GetHome
| PostWebhook (body : webhook_body)
| GetStatus
| PostTest.

Definition route (E : environment) (r : request) : M response :=
  match r with
  | GetHome => home
  | PostWebhook body => webhook E body
  | GetStatus => status_route E
  | PostTest => test_trade E
  end.

(** One request served, from the first line of its handler to the last:
    an exception that leaves a handler becomes the framework's 500 answer. *)
Definition serve (E : environment) (r : request) (w : world) : response * world :=
  match route E r w with
  | (Ok resp, w') => (resp, w')
  | (Raise _, w') => ({| status := 500; payload := InternalServerError |}, w')
  end.

(** Requests served one after another, each handler run to its end before
    the next begins.  (Flask's development server, line 212, may also run
    handlers on several threads at once; such interleavings are outside
    this function.) *)
Fixpoint serve_all (E : environment) (rs : list request) (w : world)
    : list response * world :=
  match rs with
  | [] => ([], w)
  | r :: rs' =>
      let (resp, w') := serve E r w in
      let (resps, w'') := serve_all E rs' w' in
      (resp :: resps, w'')
  end.

(** The process as it is once the module is loaded: [trader = None]. *)
Definition loaded : world :=
  {| heap := []; trader := None; sent := []; ticks := 0; entered := [];
     wire := [] |}.

(** The process started as a script: line 210 runs [initialize_trader]. *)
Definition started (E : environment) : world :=
  snd (initialize_trader E loaded).

(** ** Handlers on several threads *)

(** The server of line 212 may run handlers on several threads.  The only
    statement of a handler that assigns the global [trader] is the call of
    [initialize_trader] behind the check [if not trader] (lines 117-118,
    168-169 and 189-190), and nothing guards the two against another
    thread.  [prologue] says where a handler stands: before the check,
    between the check and the call, or past both. *)
Inductive prologue :=
| AtCheck
| AtInit
| Past.

(** The next step of a handler's prologue. *)
Definition prologue_step (E : environment) (p : prologue) (w : world)
    : prologue * world :=
  match p with
  | AtCheck =>
      match get_trader w with
      | (Ok (Some _), w') => (Past, w')
      | (_, w') => (AtInit, w')
      end
  | AtInit => (Past, snd (initialize_trader E w))
  | Past => (Past, w)
  end.

(** The handlers [ps] moved as [schedule] says: each entry names the
    handler that takes its next step (an entry that names no handler is
    passed over). *)
Fixpoint interleave (E : environment) (schedule : list nat)
    (ps : list prologue) (w : world) : list prologue * world :=
  match schedule with
  | [] => (ps, w)
  | i :: schedule' =>
      match ps !! i with
      | Some p =>
          let (p', w') := prologue_step E p w in
          interleave E schedule' (<[i := p']> ps) w'
      | None => interleave E schedule' ps w
      end
  end.

(** How often [schedule] makes a handler build a trader: the steps from
    [AtInit] with both credentials set. *)
Fixpoint constructions (E : environment) (schedule : list nat)
    (ps : list prologue) (w : world) : nat :=
  match schedule with
  | [] => 0
  | i :: schedule' =>
      match ps !! i with
      | Some p =>
          let (p', w') := prologue_step E p w in
          (match p with
           | AtInit =>
               if configured (MEXC_API_KEY E) && configured (MEXC_SECRET_KEY E)
               then 1 else 0
           | _ => 0
           end
           + constructions E schedule' (<[i := p']> ps) w')%nat
      | None => constructions E schedule' ps w
      end
  end.

(** * Vocabulary of the statements *)

(** Keys in strictly ascending order. *)
Definition key_lt (a b : item) : Prop := str_ltb (fst a) (fst b) = true.

(** The digits [0-9] and [a-f]. *)
Definition lower_hex (c : N) : Prop := 48 <= c <= 57 ∨ 97 <= c <= 102.

(** A dict entry whose key and value text can be encoded. *)
Definition item_encodable (kv : item) : bool :=
  encodable (fst kv) && encodable (py_str (snd kv)).

(** What the [try] statement hands back for a reply of the exchange. *)
Definition reply_result (r : http_reply) : json :=
  match r with
  | NoReply => JAtom SNone
  | Reply st body =>
      if (400 <=? st)%Z && (st <? 600)%Z then JAtom SNone
      else match body with
           | Some j => j
           | None => JAtom SNone
           end
  | Refused => JAtom SNone
  end.

(** The value of the local [timestamp] when the clock is read in [w]. *)
Definition stamp (E : environment) (w : world) : scalar :=
  SStr (py_str (SInt (clock_ms E (ticks w)))).

(** A parameter whose value is a [str]. *)
Definition str_item (kv : str * str) : item := (fst kv, SStr (snd kv)).

(** The signing algorithm in the words of the specification (section 4.1):
    the parameters, in ascending key order, as [k1=v1&k2=v2&...], then
    [&timestamp=<timestamp>]; HMAC-SHA256 keyed by the secret over the
    UTF-8 bytes of that text; lowercase hexadecimal.  [None] when there are
    no UTF-8 bytes. *)
Definition spec_text (ascending : list (str * str)) (timestamp : Z) : str :=
  join (lit "&") (map (fun kv => fst kv ++ lit "=" ++ snd kv) ascending)
    ++ lit "&timestamp=" ++ lit (NilZero.string_of_int (Z.to_int timestamp)).

Definition spec_sign (secret : str) (ascending : list (str * str))
    (timestamp : Z) : option str :=
  match encode_utf8 secret, encode_utf8 (spec_text ascending timestamp) with
  | Some key, Some msg => Some (hexdigest (hmac_sha256 key msg))
  | _, _ => None
  end.

(** Running an operation of the client. *)
Definition perform (E : environment) (self : MEXCTrader) (op : client_call) : M json :=
  match op with
  | PlaceOrder symbol side quantity order_type =>
      place_order E self symbol side quantity order_type
  | GetAccountInfo => get_account_info E self
  | CancelAllOrders symbol => cancel_all_orders E self symbol
  end.

(** The text an operation hands to the signing code can be encoded. *)
Definition op_encodable (op : client_call) : bool :=
  match op with
  | PlaceOrder symbol side quantity order_type =>
      encodable (py_str symbol) && encodable side
        && encodable order_type && encodable (py_str quantity)
  | GetAccountInfo => true
  | CancelAllOrders symbol => encodable (py_str symbol)
  end.

(** The routing table of the specification (section 4.2). *)
Definition spec_route (action symbol quantity : scalar) : option (client_call * str) :=
  if is_in action [lit "buy"; lit "long"] then
    Some (PlaceOrder symbol (lit "BUY") quantity (lit "MARKET"),
          msg_long symbol quantity)
  else if is_in action [lit "sell"; lit "short"] then
    Some (PlaceOrder symbol (lit "SELL") quantity (lit "MARKET"),
          msg_sell symbol quantity)
  else if is_in action [lit "close_long"; lit "close_short"; lit "close"] then
    Some (CancelAllOrders symbol, msg_close symbol)
  else None.

(** The fields a webhook reads from its payload. *)
Definition action_of (fields : dict) : scalar :=
  dict_get_default (lit "action") SNone fields.
Definition symbol_of (fields : dict) : scalar :=
  dict_get_default (lit "symbol") (SStr (lit "BTCUSDT")) fields.
Definition quantity_of (fields : dict) : scalar :=
  dict_get_default (lit "quantity") (SInt 10) fields.

(** The action values the router knows. *)
Definition recognized_actions : list str :=
  [lit "buy"; lit "long"; lit "sell"; lit "short";
   lit "close_long"; lit "close_short"; lit "close"].

(** The trader is there, or the first request will make it. *)
Definition trader_ready (E : environment) (w : world) : bool :=
  is_some (trader w)
  || (configured (MEXC_API_KEY E) && configured (MEXC_SECRET_KEY E)).

(** The answers of a process without credentials. *)
Definition unconfigured_reply (r : request) : response :=
  match r with
  | GetHome => {| status := 200; payload := Home |}
  | PostWebhook (BodyUnreadable e) =>
      {| status := 500; payload := ErrorBody (StrOf e) |}
  | PostWebhook _ =>
      {| status := 500;
         payload := ErrorBody (Text (lit "MEXC trader not initialized")) |}
  | GetStatus =>
      {| status := 200; payload := StatusError (lit "Trader not initialized") |}
  | PostTest =>
      {| status := 500; payload := ErrorBody (Text (lit "Trader not initialized")) |}
  end.

(** A sample configuration: credentials [key] / [secret], a clock that
    reads 1700000000000 ms, and an exchange that answers every call with
    status 200 and the given body. *)
Definition sample_env (body : option json) : environment :=
  {| MEXC_API_KEY := Some (lit "key");
     MEXC_SECRET_KEY := Some (lit "secret");
     clock_ms := fun _ => 1700000000000%Z;
     clock_s := fun _ => 1700000000%Z;
     exchange := fun _ => Reply 200 body |}.

Definition sample_trader : MEXCTrader := MEXCTrader_init (lit "key") (lit "secret").

(** The same without the secret key. *)
Definition no_secret_env : environment :=
  {| MEXC_API_KEY := Some (lit "key");
     MEXC_SECRET_KEY := None;
     clock_ms := fun _ => 1700000000000%Z;
     clock_s := fun _ => 1700000000%Z;
     exchange := fun _ => Reply 200 (Some (JObj [])) |}.

(** ** Vocabulary for the run of an operation and of the process *)

(** The mapping an operation builds before [_send_request] adds to it. *)
Definition op_params (op : client_call) : dict :=
  match op with
  | PlaceOrder symbol side quantity order_type =>
      place_order_params symbol side quantity order_type
  | GetAccountInfo => []
  | CancelAllOrders symbol => [(lit "symbol", symbol)]
  end.

(** The call an operation hands to [requests] once [params] is signed. *)
Definition op_call (self : MEXCTrader) (op : client_call) (params : dict)
    : option http_call :=
  match op with
  | PlaceOrder _ _ _ _ =>
      Some (RequestsPost (base_url self ++ lit "/api/v3/order") params
              (request_headers self))
  | GetAccountInfo =>
      Some (RequestsGet (base_url self ++ lit "/api/v3/account") params
              (request_headers self))
  | CancelAllOrders _ => None
  end.

(** The world once an operation has been entered, has read the clock and
    has left its dict [d] behind. *)
Definition after_op (op : client_call) (d : dict) (w : world) : world :=
  {| heap := heap w ++ [d]; trader := trader w; sent := sent w;
     ticks := S (ticks w); entered := entered w ++ [op]; wire := wire w |}.

(** What a call handed to [requests] puts on the wire: the call itself,
    unless the library refuses it. *)
Definition delivered (E : environment) (c : http_call) : list http_call :=
  match exchange E c with
  | Refused => []
  | _ => [c]
  end.

(** The secret, every key and value text of [d], and the timestamp text
    can be encoded. *)
Definition signable (self : MEXCTrader) (d : dict) (timestamp : scalar) : bool :=
  encodable (secret_key self) && forallb item_encodable d
    && encodable (py_str timestamp).

(** Two entries with the same key and the same value text. *)
Definition same_text (a b : item) : Prop :=
  fst a = fst b ∧ py_str (snd a) = py_str (snd b).

(** The trader [initialize_trader] builds from the environment, if any. *)
Definition configured_trader (E : environment) : option MEXCTrader :=
  match MEXC_API_KEY E, MEXC_SECRET_KEY E with
  | Some (k0 :: k), Some (s0 :: s) => Some (MEXCTrader_init (k0 :: k) (s0 :: s))
  | _, _ => None
  end.

(** The global [trader] is unset or the one built from the environment. *)
Definition trader_from_env (E : environment) (w : world) : Prop :=
  trader w = None ∨ trader w = configured_trader E.

(** The two kinds of call the process makes: a market order posted to
    /api/v3/order and a GET of /api/v3/account, both on api.mexc.com, with
    the configured API key in the header and [timestamp] and [signature]
    as the last two parameters. *)
Definition process_call (E : environment) (c : http_call) : Prop :=
  ∃ k, MEXC_API_KEY E = Some k ∧
    match c with
    | RequestsPost url body headers =>
        url = lit "https://api.mexc.com/api/v3/order"
        ∧ map fst body = [lit "symbol"; lit "side"; lit "type";
                          lit "quoteOrderQty"; lit "timestamp"; lit "signature"]
        ∧ (dict_get (lit "side") body = Some (SStr (lit "BUY"))
           ∨ dict_get (lit "side") body = Some (SStr (lit "SELL")))
        ∧ dict_get (lit "type") body = Some (SStr (lit "MARKET"))
        ∧ headers = [(lit "X-MEXC-APIKEY", k);
                     (lit "Content-Type", lit "application/json")]
    | RequestsGet url params headers =>
        url = lit "https://api.mexc.com/api/v3/account"
        ∧ map fst params = [lit "timestamp"; lit "signature"]
        ∧ headers = [(lit "X-MEXC-APIKEY", k);
                     (lit "Content-Type", lit "application/json")]
    end.

(** An environment whose secret key arrived undecodable (a lone surrogate,
    as surrogateescape leaves it). *)
Definition bad_secret_env : environment :=
  {| MEXC_API_KEY := Some (lit "key");
     MEXC_SECRET_KEY := Some (lit "sec" ++ [0xDCFF]);
     clock_ms := fun _ => 1700000000000%Z;
     clock_s := fun _ => 1700000000%Z;
     exchange := fun _ => Reply 200 (Some (JObj [])) |}.

(** An environment whose API key ends in a carriage return, a header value
    the library refuses: every call is refused before it is sent. *)
Definition refusing_env : environment :=
  {| MEXC_API_KEY := Some (lit "key" ++ [13]);
     MEXC_SECRET_KEY := Some (lit "secret");
     clock_ms := fun _ => 1700000000000%Z;
     clock_s := fun _ => 1700000000%Z;
     exchange := fun _ => Refused |}.

(** The operations a route can ask for. *)
Definition routable (op : client_call) : Prop :=
  op = GetAccountInfo
  ∨ ∃ symbol quantity,
      op = PlaceOrder symbol (lit "BUY") quantity (lit "MARKET")
      ∨ op = PlaceOrder symbol (lit "SELL") quantity (lit "MARKET")
      ∨ op = CancelAllOrders symbol.

(** * Properties *)

(** ** Test vectors for the digest functions *)

Example sha256_abc :
  hexdigest (SHA256.digest (lit "abc")) =
  lit "ba7816bf8f01cfea414140de5dae2223b00361a396177a9cb410ff61f20015ad".
Proof. vm_compute. reflexivity. Qed.

Example sha256_two_blocks :
  hexdigest (SHA256.digest (repeat 97 119)) =
  lit "31eba51c313a5c08226adf18d4a359cfdfd8d2e816b13f4af952f7ea6584dcfb".
Proof. vm_compute. reflexivity. Qed.

Example hmac_rfc4231_case2 :
  hexdigest (hmac_sha256 (lit "Jefe") (lit "what do ya want for nothing?")) =
  lit "5bdcc146bf60754e6a042426089575c75a003f089d2739839dec58b964ec3843".
Proof. vm_compute. reflexivity. Qed.

Example hmac_long_key :
  hexdigest (hmac_sha256 (repeat 107 70) (repeat 97 130)) =
  lit "bc96a3db179aec292930cedb40322650fb8aa77c0fde4d89fa0f1cb95b8dfa29".
Proof. vm_compute. reflexivity. Qed.

(** The digest Python's [hmac] gives for the text that [_send_request]
    signs in the sample run of [place_order] below. *)
Example hmac_order_text :
  hexdigest (hmac_sha256 (lit "secret")
    (lit ("quoteOrderQty=50&side=BUY&symbol=BTCUSDT"
          ++ "&timestamp=1700000000000&type=MARKET"
          ++ "&timestamp=1700000000000"))) =
  lit "3007af9f118505d7e9eb19db4917048fcbf19e93ece99b70b10d11da466d1354".
Proof. vm_compute. reflexivity. Qed.

(** ** Order on text *)

Lemma str_compare_refl (a : str) : str_compare a a = Eq.
Proof.
  induction a as [|x a IH]; simpl; [reflexivity|].
  now rewrite N.compare_refl.
Qed.

Lemma str_compare_eq (a b : str) : str_compare a b = Eq → a = b.
Proof.
  revert b; induction a as [|x a IH]; intros [|y b]; simpl; try discriminate; auto.
  destruct (x ?= y) eqn:Hxy; try discriminate.
  intros H. apply N.compare_eq in Hxy. f_equal; auto.
Qed.

Lemma str_compare_antisym (a b : str) :
  str_compare b a = CompOpp (str_compare a b).
Proof.
  revert b; induction a as [|x a IH]; intros [|y b]; simpl; auto.
  rewrite (N.compare_antisym x y).
  destruct (x ?= y); simpl; auto.
Qed.

Lemma str_compare_trans (a b c : str) :
  str_compare a b = Lt → str_compare b c = Lt → str_compare a c = Lt.
Proof.
  revert b c; induction a as [|x a IH]; intros [|y b] [|z c]; simpl;
    try discriminate; auto.
  destruct (x ?= y) eqn:Hxy; try discriminate;
    destruct (y ?= z) eqn:Hyz; try discriminate; intros H1 H2.
  - apply N.compare_eq in Hxy, Hyz. subst. rewrite N.compare_refl. eauto.
  - apply N.compare_eq in Hxy. subst. now rewrite Hyz.
  - apply N.compare_eq in Hyz. subst. now rewrite Hxy.
  - rewrite N.compare_lt_iff in Hxy, Hyz.
    assert (x < z) as Hxz by lia. rewrite <- N.compare_lt_iff in Hxz.
    now rewrite Hxz.
Qed.

Lemma str_eqb_eq (a b : str) : str_eqb a b = true ↔ a = b.
Proof.
  unfold str_eqb. split.
  - destruct (str_compare a b) eqn:H; try discriminate.
    intros _. now apply str_compare_eq.
  - intros ->. now rewrite str_compare_refl.
Qed.

Lemma str_eqb_refl (a : str) : str_eqb a a = true.
Proof. now apply str_eqb_eq. Qed.

Lemma str_eqb_neq (a b : str) : str_eqb a b = false ↔ a ≠ b.
Proof.
  rewrite <- str_eqb_eq. destruct (str_eqb a b); split; congruence.
Qed.

Lemma str_ltb_irrefl (a : str) : str_ltb a a = false.
Proof. unfold str_ltb. now rewrite str_compare_refl. Qed.

Lemma str_ltb_trans (a b c : str) :
  str_ltb a b = true → str_ltb b c = true → str_ltb a c = true.
Proof.
  unfold str_ltb.
  destruct (str_compare a b) eqn:H1; try discriminate.
  destruct (str_compare b c) eqn:H2; try discriminate.
  intros _ _. now rewrite (str_compare_trans a b c).
Qed.

Lemma str_ltb_asym (a b : str) : str_ltb a b = true → str_ltb b a = false.
Proof.
  unfold str_ltb. rewrite (str_compare_antisym a b).
  destruct (str_compare a b); simpl; congruence.
Qed.

Lemma str_ltb_total (a b : str) :
  a ≠ b → str_ltb a b = false → str_ltb b a = true.
Proof.
  unfold str_ltb. rewrite (str_compare_antisym a b).
  destruct (str_compare a b) eqn:H; simpl; try congruence.
  apply str_compare_eq in H. congruence.
Qed.

(** ** [sorted] on the items of a dict *)

Lemma insort_Permutation (x : item) (l : list item) : insort x l ≡ₚ x :: l.
Proof.
  induction l as [|y l IH]; simpl; [reflexivity|].
  destruct (item_ltb y x); [|reflexivity].
  rewrite IH. apply perm_swap.
Qed.

Lemma sorted_Permutation (l : list item) : sorted l ≡ₚ l.
Proof.
  induction l as [|x l IH]; simpl; [reflexivity|].
  now rewrite insort_Permutation, IH.
Qed.

Lemma insort_StronglySorted (x : item) (l : list item) :
  fst x ∉ map fst l →
  StronglySorted key_lt l → StronglySorted key_lt (insort x l).
Proof.
  intros Hx Hl. induction Hl as [|y l Hl IH Hy]; simpl.
  - repeat constructor.
  - assert (fst x ≠ fst y) as Hxy by (intros E; apply Hx; rewrite E; simpl; left).
    assert (fst x ∉ map fst l) as Hx' by (intros E; apply Hx; simpl; now right).
    unfold item_ltb. destruct (str_ltb (fst y) (fst x)) eqn:Hlt.
    + constructor; [auto|].
      rewrite (insort_Permutation x l). constructor; auto.
    + assert (key_lt x y) as Hxlt.
      { unfold key_lt. apply str_ltb_total; auto. }
      constructor; [constructor; auto|].
      constructor; [auto|].
      eapply Forall_impl; [exact Hy|].
      intros z Hz. unfold key_lt in *. eapply str_ltb_trans; eauto.
Qed.

Lemma sorted_StronglySorted (d : dict) :
  dict_ok d → StronglySorted key_lt (sorted d).
Proof.
  unfold dict_ok. induction d as [|x d IH]; simpl; intros H.
  - constructor.
  - apply NoDup_cons in H as [Hx Hd].
    apply insort_StronglySorted; auto.
    now rewrite (sorted_Permutation d).
Qed.

(** The key-ascending arrangement of a dict's items is unique, and it is
    the one [sorted] computes. *)
Lemma sorted_canonical (d : dict) (l : list item) :
  dict_ok d → l ≡ₚ d → StronglySorted key_lt l → sorted d = l.
Proof.
  intros Hd Hp Hl.
  apply (StronglySorted_unique_strong key_lt); auto.
  - intros a b _ _ Hab Hba. unfold key_lt in *.
    apply str_ltb_asym in Hab. congruence.
  - now apply sorted_StronglySorted.
  - now rewrite sorted_Permutation, Hp.
Qed.

Lemma dict_ok_Permutation (d1 d2 : dict) : d1 ≡ₚ d2 → dict_ok d1 → dict_ok d2.
Proof. unfold dict_ok. intros H. now rewrite H. Qed.

Lemma sorted_insertion_order (d1 d2 : dict) :
  dict_ok d1 → d1 ≡ₚ d2 → sorted d1 = sorted d2.
Proof.
  intros Hd Hp. apply sorted_canonical; auto.
  - now rewrite sorted_Permutation.
  - apply sorted_StronglySorted. eapply dict_ok_Permutation; eauto.
Qed.

(** ** Digests are 32 bytes, hex digests 64 lowercase hexadecimal digits *)

Lemma be_bytes_length (n : nat) (x : N) : length (SHA256.be_bytes n x) = n.
Proof. induction n; simpl; auto. Qed.

Lemma digest_length (msg : list N) : length (SHA256.digest msg) = 32%nat.
Proof.
  unfold SHA256.digest, SHA256.output.
  now rewrite !length_app, !be_bytes_length.
Qed.

Lemma hmac_sha256_length (key msg : list N) : length (hmac_sha256 key msg) = 32%nat.
Proof. unfold hmac_sha256. apply digest_length. Qed.

Lemma hexdigest_length (bs : list N) : length (hexdigest bs) = (2 * length bs)%nat.
Proof.
  unfold hexdigest. induction bs as [|b bs IH]; simpl; [reflexivity|].
  rewrite IH. lia.
Qed.

Lemma hex_digit_lower (d : N) : d < 16 → lower_hex (hex_digit d).
Proof.
  intros Hd. unfold hex_digit, lower_hex.
  destruct (N.ltb_spec d 10); lia.
Qed.

Lemma hexdigest_lower (bs : list N) : Forall lower_hex (hexdigest bs).
Proof.
  unfold hexdigest. induction bs as [|b bs IH]; simpl; [constructor|].
  constructor; [|constructor; [|exact IH]];
    apply hex_digit_lower; apply N.mod_lt; lia.
Qed.

(** ** Which text [encode] accepts *)

Lemma utf8_char_encodable (c : N) :
  encodable_char c = true ↔ is_Some (utf8_char c).
Proof.
  unfold encodable_char, utf8_char.
  destruct (N.ltb_spec c 0x80), (N.ltb_spec c 0x800), (N.leb_spec 0xD800 c),
    (N.ltb_spec c 0xE000), (N.ltb_spec c 0x10000), (N.ltb_spec c 0x110000);
    simpl; split; intros H'; try reflexivity; try discriminate; try lia;
    try (eexists; reflexivity); try (destruct H' as [? H']; discriminate).
Qed.

Lemma encode_utf8_encodable (s : str) :
  encodable s = true ↔ is_Some (encode_utf8 s).
Proof.
  induction s as [|c s IH]; simpl.
  - split; [eexists|]; reflexivity.
  - rewrite andb_true_iff, utf8_char_encodable, IH.
    destruct (utf8_char c), (encode_utf8 s); split;
      try (intros [[? ?] [? ?]]; discriminate);
      try (intros [? ?]; discriminate).
    + eexists; reflexivity.
    + split; eexists; reflexivity.
Qed.

Lemma encode_utf8_None (s : str) :
  encodable s = false ↔ encode_utf8 s = None.
Proof.
  pose proof (encode_utf8_encodable s) as H.
  destruct (encodable s), (encode_utf8 s); split; intros H'; try discriminate;
    try reflexivity.
  - exfalso. destruct H as [H _]. destruct (H eq_refl) as [? ?]. discriminate.
  - exfalso. destruct H as [_ H].
    assert (false = true) by (apply H; eexists; reflexivity). discriminate.
Qed.

Lemma encodable_app (a b : str) :
  encodable (a ++ b) = encodable a && encodable b.
Proof. unfold encodable. apply forallb_app. Qed.

(** Decimal numerals are ASCII. *)
Lemma encodable_uint (u : Decimal.uint) :
  encodable (lit (NilEmpty.string_of_uint u)) = true.
Proof. induction u; simpl; auto. Qed.

Lemma encodable_decimal (z : Z) : encodable (py_str (SInt z)) = true.
Proof.
  cbn [py_str]. destruct (Z.to_int z) as [u|u]; cbn [NilZero.string_of_int].
  - destruct u; try reflexivity; apply encodable_uint.
  - change (encodable (lit (NilZero.string_of_uint u)) = true).
    destruct u; try reflexivity; apply encodable_uint.
Qed.

Lemma forallb_insort (f : item → bool) (x : item) (l : list item) :
  forallb f (insort x l) = f x && forallb f l.
Proof.
  induction l as [|y l IH]; simpl; [reflexivity|].
  destruct (item_ltb y x); simpl; [|reflexivity].
  rewrite IH. destruct (f x), (f y); reflexivity.
Qed.

Lemma forallb_sorted (f : item → bool) (l : list item) :
  forallb f (sorted l) = forallb f l.
Proof.
  induction l as [|x l IH]; simpl; [reflexivity|].
  now rewrite forallb_insort, IH.
Qed.

Lemma encodable_join (sep : str) (parts : list str) :
  encodable sep = true →
  encodable (join sep parts) = forallb encodable parts.
Proof.
  intros Hsep. induction parts as [|p parts IH]; [reflexivity|].
  destruct parts as [|q parts].
  - simpl. now rewrite andb_true_r.
  - change (join sep (p :: q :: parts)) with (p ++ sep ++ join sep (q :: parts)).
    rewrite !encodable_app, Hsep, IH. reflexivity.
Qed.

Lemma encodable_key_values (l : list item) :
  forallb encodable (map key_value l) = forallb item_encodable l.
Proof.
  induction l as [|[k v] l IH]; simpl; [reflexivity|].
  rewrite IH. unfold key_value, item_encodable; simpl.
  now rewrite !encodable_app.
Qed.

Lemma encodable_query_string (d : dict) (ts : scalar) :
  encodable (query_string d ts)
  = forallb item_encodable d && encodable (py_str ts).
Proof.
  unfold query_string.
  rewrite !encodable_app, encodable_join by reflexivity.
  now rewrite encodable_key_values, forallb_sorted.
Qed.

(** [_generate_signature] raises exactly when the secret or the text to
    sign cannot be encoded. *)
Lemma generate_signature_Raise (self : MEXCTrader) (d : dict) (ts : scalar) :
  encodable (secret_key self) && encodable (query_string d ts) = false →
  _generate_signature self d ts = Raise UnicodeEncodeError.
Proof.
  intros H. unfold _generate_signature.
  apply andb_false_iff in H as [H|H]; apply encode_utf8_None in H; rewrite H.
  - reflexivity.
  - now destruct (encode_utf8 (secret_key self)).
Qed.

Lemma generate_signature_Ok (self : MEXCTrader) (d : dict) (ts : scalar) :
  encodable (secret_key self) && encodable (query_string d ts) = true →
  ∃ key msg,
    encode_utf8 (secret_key self) = Some key ∧
    encode_utf8 (query_string d ts) = Some msg ∧
    _generate_signature self d ts = Ok (hexdigest (hmac_sha256 key msg)).
Proof.
  intros H. apply andb_true_iff in H as [H1 H2].
  apply encode_utf8_encodable in H1 as [key Hk], H2 as [msg Hm].
  exists key, msg. unfold _generate_signature. now rewrite Hk, Hm.
Qed.

Lemma generate_signature_exn (self : MEXCTrader) (d : dict) (ts : scalar) (e : exn) :
  _generate_signature self d ts = Raise e → e = UnicodeEncodeError.
Proof.
  unfold _generate_signature.
  destruct (encode_utf8 (secret_key self)), (encode_utf8 (query_string d ts));
    congruence.
Qed.

(** ** Running the client *)

(** A refused call puts nothing on the wire, any other call itself. *)
Lemma delivered_refused (E : environment) (c : http_call) :
  exchange E c = Refused → delivered E c = [].
Proof. unfold delivered. now intros ->. Qed.

Lemma delivered_sent (E : environment) (c : http_call) :
  exchange E c ≠ Refused → delivered E c = [c].
Proof. unfold delivered. now destruct (exchange E c). Qed.

Lemma attempt_requests (E : environment) (c : http_call) (w : world) :
  try_except
    (let* response := (let* r := requests E c in ret (Some r)) in
     match response with
     | None => raise UnboundLocalError
     | Some response =>
         let* _ := raise_for_status response in response_json response
     end)
    (fun e => ret (JAtom SNone)) w
  = (Ok (reply_result (exchange E c)),
     with_wire (wire w ++ delivered E c) (with_sent (sent w ++ [c]) w)).
Proof.
  unfold try_except, bind, requests, reply_result, delivered.
  destruct (exchange E c) as [|st body|]; [reflexivity| |].
  - unfold raise_for_status, ret, raise; simpl.
    destruct ((400 <=? st)%Z && (st <? 600)%Z); [reflexivity|].
    unfold response_json; simpl. now destruct body.
  - unfold with_wire, with_sent; cbn. now rewrite app_nil_r.
Qed.

Lemma attempt_GET (E : environment) (url : str) (p : ref)
    (headers : list (str * str)) (w : world) :
  attempt E (lit "GET") url p headers w
  = (Ok (reply_result (exchange E (RequestsGet url (object p w) headers))),
     with_wire (wire w ++ delivered E (RequestsGet url (object p w) headers))
       (with_sent (sent w ++ [RequestsGet url (object p w) headers]) w)).
Proof.
  unfold attempt.
  change (str_eqb (lit "GET") (lit "GET")) with true; cbv iota.
  apply (attempt_requests E (RequestsGet url (object p w) headers) w).
Qed.

Lemma attempt_POST (E : environment) (url : str) (p : ref)
    (headers : list (str * str)) (w : world) :
  attempt E (lit "POST") url p headers w
  = (Ok (reply_result (exchange E (RequestsPost url (object p w) headers))),
     with_wire (wire w ++ delivered E (RequestsPost url (object p w) headers))
       (with_sent (sent w ++ [RequestsPost url (object p w) headers]) w)).
Proof.
  unfold attempt.
  change (str_eqb (lit "POST") (lit "GET")) with false.
  change (str_eqb (lit "POST") (lit "POST")) with true; cbv iota.
  apply (attempt_requests E (RequestsPost url (object p w) headers) w).
Qed.

(** Any other method: nothing is sent, the unbound [response] raises inside
    the [try], and the handler returns [None]. *)
Lemma attempt_other (E : environment) (method url : str) (p : ref)
    (headers : list (str * str)) (w : world) :
  str_eqb method (lit "GET") = false →
  str_eqb method (lit "POST") = false →
  attempt E method url p headers w = (Ok (JAtom SNone), w).
Proof.
  intros H1 H2. unfold attempt. rewrite H1, H2. reflexivity.
Qed.

(** [_send_request] on a caller's dict [d] at [p]. *)
Lemma send_request_ref (E : environment) (self : MEXCTrader)
    (method endpoint : str) (p : ref) (w : world) (d : dict) :
  heap w !! p = Some d →
  _send_request E self method endpoint (Some p) w =
  let d1 := dict_set (lit "timestamp") (stamp E w) d in
  match _generate_signature self d1 (stamp E w) with
  | Raise e =>
      (Raise e, with_heap (<[p := d1]> (heap w)) (with_ticks (S (ticks w)) w))
  | Ok signature =>
      attempt E method (base_url self ++ endpoint) p (request_headers self)
        (with_heap (<[p := dict_set (lit "signature") (SStr signature) d1]> (heap w))
           (with_ticks (S (ticks w)) w))
  end.
Proof.
  intros Hp. pose proof (lookup_lt_Some _ _ _ Hp) as Hlt.
  unfold _send_request, bind, ret, now_ms, setitem, deref, lift, object, stamp.
  cbn [heap with_heap with_ticks ticks]. rewrite Hp.
  rewrite list_lookup_insert_eq by exact Hlt.
  destruct (_generate_signature self _ _); [|reflexivity].
  rewrite list_insert_insert_eq. reflexivity.
Qed.

(** Without [params] a new empty dict is made first. *)
Lemma send_request_None (E : environment) (self : MEXCTrader)
    (method endpoint : str) (w : world) :
  _send_request E self method endpoint None w =
  _send_request E self method endpoint (Some (length (heap w)))
    (with_heap (heap w ++ [[]]) w).
Proof. reflexivity. Qed.

Lemma lookup_new (h : list dict) (d : dict) : (h ++ [d]) !! length h = Some d.
Proof. now rewrite list_lookup_middle. Qed.

Lemma insert_new (h : list dict) (d d' : dict) :
  <[length h := d']> (h ++ [d]) = h ++ [d'].
Proof.
  replace (length h) with (length h + 0)%nat by lia.
  now rewrite insert_app_r.
Qed.


(** ** The run of an operation, written out *)

Lemma op_params_stamped (op : client_call) (ts : scalar) :
  dict_set (lit "timestamp") ts (op_params op)
  = op_params op ++ [(lit "timestamp", ts)].
Proof. destruct op; reflexivity. Qed.

Lemma op_params_signed (op : client_call) (ts sig : scalar) :
  dict_set (lit "signature") sig (op_params op ++ [(lit "timestamp", ts)])
  = op_params op ++ [(lit "timestamp", ts); (lit "signature", sig)].
Proof. destruct op; reflexivity. Qed.

Lemma perform_start (E : environment) (self : MEXCTrader) (op : client_call)
    (w : world) :
  perform E self op w
  = _send_request E self
      match op with
      | PlaceOrder _ _ _ _ => lit "POST"
      | GetAccountInfo => lit "GET"
      | CancelAllOrders _ => lit "DELETE"
      end
      match op with
      | PlaceOrder _ _ _ _ => lit "/api/v3/order"
      | GetAccountInfo => lit "/api/v3/account"
      | CancelAllOrders _ => lit "/api/v3/openOrders"
      end
      (Some (length (heap w)))
      (with_heap (heap w ++ [op_params op])
         (with_entered (entered w ++ [op]) w)).
Proof. destruct op; reflexivity. Qed.

(** One operation, from entry to return: the clock is read once, the
    operation's dict gets [timestamp], the text is signed, the dict gets
    [signature], and the call, if the method has one, is handed to
    [requests]; it goes out unless the library refuses it. *)
Lemma perform_run (E : environment) (self : MEXCTrader) (op : client_call)
    (w : world) :
  perform E self op w =
  match _generate_signature self
          (op_params op ++ [(lit "timestamp", stamp E w)]) (stamp E w) with
  | Raise e =>
      (Raise e, after_op op (op_params op ++ [(lit "timestamp", stamp E w)]) w)
  | Ok signature =>
      let d := op_params op ++ [(lit "timestamp", stamp E w);
                                (lit "signature", SStr signature)] in
      match op_call self op d with
      | Some c =>
          (Ok (reply_result (exchange E c)),
           with_wire (wire w ++ delivered E c)
             (with_sent (sent w ++ [c]) (after_op op d w)))
      | None => (Ok (JAtom SNone), after_op op d w)
      end
  end.
Proof.
  rewrite perform_start.
  rewrite (send_request_ref E self _ _ _ _ (op_params op)) by apply lookup_new.
  cbv zeta. rewrite op_params_stamped.
  change (stamp E (with_heap _ (with_entered _ w))) with (stamp E w).
  destruct (_generate_signature self _ (stamp E w)) as [signature|e].
  - rewrite op_params_signed.
    destruct op as [symbol side quantity order_type| |symbol]; cbn [op_call].
    + rewrite attempt_POST. unfold object, with_sent, with_wire, after_op.
      cbn [heap sent trader ticks entered wire with_heap with_ticks
           with_entered].
      now rewrite insert_new, lookup_new.
    + rewrite attempt_GET. unfold object, with_sent, with_wire, after_op.
      cbn [heap sent trader ticks entered wire with_heap with_ticks
           with_entered].
      now rewrite insert_new, lookup_new.
    + rewrite attempt_other by reflexivity. unfold after_op.
      cbn [heap sent trader ticks entered with_heap with_ticks with_entered].
      now rewrite insert_new.
  - unfold after_op.
    cbn [heap sent trader ticks entered with_heap with_ticks with_entered].
    now rewrite insert_new.
Qed.

(** ** The signature *)

Lemma Ok_inj {A} (a b : A) : Ok a = Ok b → a = b.
Proof.
  intros H.
  exact (f_equal (fun o => match o with Ok x => x | Raise _ => a end) H).
Qed.

Lemma key_lt_str_items (l : list (str * str)) :
  StronglySorted (fun a b => str_ltb (fst a) (fst b) = true) l →
  StronglySorted key_lt (map str_item l).
Proof.
  induction 1 as [|x l Hl IH Hx]; simpl; constructor; auto.
  clear Hl IH. induction Hx; simpl; constructor; auto.
Qed.

Lemma map_fst_str_items (l : list (str * str)) :
  map fst (map str_item l) = map fst l.
Proof. induction l as [|[k v] l IH]; simpl; congruence. Qed.

Lemma query_string_str_items (l : list (str * str)) :
  map key_value (map str_item l)
  = map (fun kv => fst kv ++ lit "=" ++ snd kv) l.
Proof.
  induction l as [|[k v] l IH]; [reflexivity|].
  cbn [map]. rewrite IH. reflexivity.
Qed.

(** C3.  For a mapping of string keys to string values and an integer
    timestamp, [_generate_signature] is HMAC-SHA256, keyed by the secret,
    over the UTF-8 bytes of the parameters written in ascending key order
    as k1=v1&k2=v2&... followed by &timestamp=<timestamp>, in lowercase
    hexadecimal (64 digits); it raises exactly when that text, or the
    secret, has no UTF-8 bytes. *)
Theorem generate_signature_canonical (self : MEXCTrader)
    (params ascending : list (str * str)) (timestamp : Z) :
  NoDup (map fst params) →
  ascending ≡ₚ params →
  StronglySorted (fun a b => str_ltb (fst a) (fst b) = true) ascending →
  _generate_signature self (map str_item params) (SInt timestamp)
  = match spec_sign (secret_key self) ascending timestamp with
    | Some signature => Ok signature
    | None => Raise UnicodeEncodeError
    end
  ∧ ∀ signature,
      _generate_signature self (map str_item params) (SInt timestamp) = Ok signature →
      length signature = 64%nat ∧ Forall lower_hex signature.
Proof.
  intros Hnd Hperm Hasc.
  assert (sorted (map str_item params) = map str_item ascending) as Hs.
  { apply sorted_canonical.
    - unfold dict_ok. now rewrite map_fst_str_items.
    - now apply Permutation_map.
    - now apply key_lt_str_items. }
  assert (query_string (map str_item params) (SInt timestamp)
          = spec_text ascending timestamp) as Hq.
  { unfold query_string, spec_text. now rewrite Hs, query_string_str_items. }
  unfold _generate_signature, spec_sign. rewrite Hq. split.
  - destruct (encode_utf8 (secret_key self)),
      (encode_utf8 (spec_text ascending timestamp)); reflexivity.
  - intros signature.
    destruct (encode_utf8 (secret_key self)),
      (encode_utf8 (spec_text ascending timestamp)); try discriminate.
    intros H. apply Ok_inj in H. subst signature. split.
    + now rewrite hexdigest_length, hmac_sha256_length.
    + apply hexdigest_lower.
Qed.

Lemma generate_signature_canonical_witness :
  let params := [(lit "symbol", lit "BTCUSDT"); (lit "side", lit "BUY")] in
  let ascending := [(lit "side", lit "BUY"); (lit "symbol", lit "BTCUSDT")] in
  _generate_signature sample_trader (map str_item params) (SInt 1700000000000)
  = match spec_sign (lit "secret") ascending 1700000000000 with
    | Some signature => Ok signature
    | None => Raise UnicodeEncodeError
    end
  ∧ ∀ signature,
      _generate_signature sample_trader (map str_item params) (SInt 1700000000000)
        = Ok signature →
      length signature = 64%nat ∧ Forall lower_hex signature.
Proof.
  intros params ascending.
  apply (generate_signature_canonical sample_trader params ascending 1700000000000).
  - apply (bool_decide_unpack _). vm_compute. reflexivity.
  - apply perm_swap.
  - repeat constructor.
Defined.

(** C9.  The signature is a function of the secret, the entries of the
    mapping and the timestamp: two dicts that hold the same entries, in
    whatever insertion order, get the same signature. *)
Theorem generate_signature_insertion_order (self : MEXCTrader)
    (d1 d2 : dict) (timestamp : scalar) :
  dict_ok d1 →
  d1 ≡ₚ d2 →
  _generate_signature self d1 timestamp = _generate_signature self d2 timestamp.
Proof.
  intros Hd Hp. unfold _generate_signature, query_string.
  now rewrite (sorted_insertion_order d1 d2).
Qed.

Lemma generate_signature_insertion_order_witness :
  _generate_signature sample_trader
    [(lit "symbol", SStr (lit "BTCUSDT")); (lit "side", SStr (lit "BUY"))]
    (SInt 1700000000000)
  = _generate_signature sample_trader
      [(lit "side", SStr (lit "BUY")); (lit "symbol", SStr (lit "BTCUSDT"))]
      (SInt 1700000000000).
Proof.
  apply generate_signature_insertion_order.
  - apply (bool_decide_unpack _). vm_compute. reflexivity.
  - apply perm_swap.
Defined.

(** ** dict lookups after an assignment *)

Lemma dict_get_set_eq (k : str) (v : scalar) (d : dict) :
  dict_get k (dict_set k v d) = Some v.
Proof.
  induction d as [|[k' v'] d IH]; simpl.
  - now rewrite str_eqb_refl.
  - destruct (str_eqb k' k) eqn:Hk; simpl; now rewrite Hk.
Qed.

Lemma dict_get_set_ne (k k' : str) (v : scalar) (d : dict) :
  k ≠ k' → dict_get k' (dict_set k v d) = dict_get k' d.
Proof.
  intros Hne. induction d as [|[k0 v0] d IH]; simpl.
  - apply str_eqb_neq in Hne. now rewrite Hne.
  - destruct (str_eqb k0 k) eqn:Hk; simpl.
    + apply str_eqb_eq in Hk. subst k0.
      apply str_eqb_neq in Hne. now rewrite Hne.
    + now rewrite IH.
Qed.

(** ** What one call of [_send_request] does to the world *)

Lemma attempt_cases (E : environment) (method url : str) (p : ref)
    (headers : list (str * str)) (w : world) :
  ∃ j w', attempt E method url p headers w = (Ok j, w')
    ∧ heap w' = heap w ∧ trader w' = trader w
    ∧ ticks w' = ticks w ∧ entered w' = entered w
    ∧ ((sent w' = sent w ∧ j = JAtom SNone)
       ∨ ∃ c, sent w' = sent w ++ [c] ∧ j = reply_result (exchange E c)).
Proof.
  destruct (str_eqb method (lit "GET")) eqn:HG.
  - apply str_eqb_eq in HG. subst method. rewrite attempt_GET.
    eexists _, _. repeat split. right. eexists. split; reflexivity.
  - destruct (str_eqb method (lit "POST")) eqn:HP.
    + apply str_eqb_eq in HP. subst method. rewrite attempt_POST.
      eexists _, _. repeat split. right. eexists. split; reflexivity.
    + rewrite attempt_other by assumption.
      eexists _, _. repeat split. now left.
Qed.

(** The run of [_send_request] on a caller's dict: it raises only from the
    signing step, before anything is sent; otherwise it returns, having
    sent at most one call. *)
Lemma send_request_cases (E : environment) (self : MEXCTrader)
    (method endpoint : str) (p : ref) (w : world) (d : dict) :
  heap w !! p = Some d →
  ∃ r w', _send_request E self method endpoint (Some p) w = (r, w')
    ∧ trader w' = trader w ∧ entered w' = entered w
    ∧ length (heap w') = length (heap w)
    ∧ ((r = Raise UnicodeEncodeError ∧ sent w' = sent w
        ∧ encodable (secret_key self)
           && encodable (query_string (dict_set (lit "timestamp") (stamp E w) d)
                           (stamp E w)) = false)
       ∨ ∃ j, r = Ok j
           ∧ ((sent w' = sent w ∧ j = JAtom SNone)
              ∨ ∃ c, sent w' = sent w ++ [c] ∧ j = reply_result (exchange E c))).
Proof.
  intros Hp. rewrite (send_request_ref E self method endpoint p w d Hp).
  cbv zeta.
  destruct (encodable (secret_key self)
            && encodable (query_string (dict_set (lit "timestamp") (stamp E w) d)
                            (stamp E w))) eqn:Henc.
  - destruct (generate_signature_Ok _ _ _ Henc) as (key & msg & _ & _ & ->).
    match goal with |- context [attempt E method ?u p ?h ?w0] =>
      destruct (attempt_cases E method u p h w0)
        as (j & w' & -> & Hh & Ht & _ & He & Hs) end.
    exists (Ok j), w'. split; [reflexivity|].
    rewrite Ht, He, Hh. cbn [trader entered heap with_heap with_ticks].
    rewrite length_insert. repeat split. right. exists j. split; [reflexivity|].
    exact Hs.
  - rewrite (generate_signature_Raise _ _ _ Henc).
    eexists _, _. split; [reflexivity|].
    cbn [trader entered heap sent with_heap with_ticks].
    rewrite length_insert. repeat split. now left.
Qed.

Lemma place_order_run (E : environment) (self : MEXCTrader)
    (symbol : scalar) (side : str) (quantity : scalar) (order_type : str) (w : world) :
  place_order E self symbol side quantity order_type w
  = _send_request E self (lit "POST") (lit "/api/v3/order") (Some (length (heap w)))
      (with_heap (heap w ++ [place_order_params symbol side quantity order_type])
         (with_entered (entered w ++ [PlaceOrder symbol side quantity order_type]) w)).
Proof. reflexivity. Qed.

Lemma get_account_info_run (E : environment) (self : MEXCTrader) (w : world) :
  get_account_info E self w
  = _send_request E self (lit "GET") (lit "/api/v3/account") (Some (length (heap w)))
      (with_heap (heap w ++ [[]]) (with_entered (entered w ++ [GetAccountInfo]) w)).
Proof. reflexivity. Qed.

Lemma cancel_all_orders_run (E : environment) (self : MEXCTrader)
    (symbol : scalar) (w : world) :
  cancel_all_orders E self symbol w
  = _send_request E self (lit "DELETE") (lit "/api/v3/openOrders")
      (Some (length (heap w)))
      (with_heap (heap w ++ [[(lit "symbol", symbol)]])
         (with_entered (entered w ++ [CancelAllOrders symbol]) w)).
Proof. reflexivity. Qed.

(** ** The three operations *)

(** C2.  [cancel_all_orders] sends nothing: [_send_request] has no branch
    for the method DELETE, the unbound [response] raises inside the [try],
    and the operation returns [None] (or raises from the signing step)
    without any outbound call. *)
Theorem cancel_all_orders_sends_nothing (E : environment) (self : MEXCTrader)
    (symbol : scalar) (w : world) :
  sent (snd (cancel_all_orders E self symbol w)) = sent w
  ∧ (fst (cancel_all_orders E self symbol w) = Ok (JAtom SNone)
     ∨ fst (cancel_all_orders E self symbol w) = Raise UnicodeEncodeError).
Proof.
  rewrite cancel_all_orders_run.
  rewrite (send_request_ref E self _ _ _ _ [(lit "symbol", symbol)])
    by apply lookup_new.
  cbv zeta.
  match goal with |- context [_generate_signature self ?d ?t] =>
    destruct (_generate_signature self d t) as [signature|e] eqn:Hsig end.
  - rewrite attempt_other by reflexivity. split; [reflexivity|now left].
  - apply generate_signature_exn in Hsig. subst e. split; [reflexivity|now right].
Qed.

(** C1.  The text signed by [_send_request] for
    [place_order("BTCUSDT", "BUY", 50, "MARKET")] at clock reading
    1700000000000: [timestamp] is already an entry of the mapping when the
    signature is computed, so it is written once in key order and once more
    at the end. *)
Theorem send_request_signs_timestamp_twice :
  query_string
    (dict_set (lit "timestamp") (SStr (lit "1700000000000"))
       (place_order_params (SStr (lit "BTCUSDT")) (lit "BUY") (SInt 50) (lit "MARKET")))
    (SStr (lit "1700000000000"))
  = lit ("quoteOrderQty=50&side=BUY&symbol=BTCUSDT"
         ++ "&timestamp=1700000000000&type=MARKET"
         ++ "&timestamp=1700000000000")
  ∧ sent (snd (place_order (sample_env (Some (JObj []))) sample_trader
                 (SStr (lit "BTCUSDT")) (lit "BUY") (SInt 50) (lit "MARKET") loaded))
    = [RequestsPost (lit "https://api.mexc.com/api/v3/order")
         [(lit "symbol", SStr (lit "BTCUSDT"));
          (lit "side", SStr (lit "BUY"));
          (lit "type", SStr (lit "MARKET"));
          (lit "quoteOrderQty", SStr (lit "50"));
          (lit "timestamp", SStr (lit "1700000000000"));
          (lit "signature",
           SStr (hexdigest (hmac_sha256 (lit "secret")
             (lit ("quoteOrderQty=50&side=BUY&symbol=BTCUSDT"
                   ++ "&timestamp=1700000000000&type=MARKET"
                   ++ "&timestamp=1700000000000")))))]
         [(lit "X-MEXC-APIKEY", lit "key");
          (lit "Content-Type", lit "application/json")]].
Proof. split; vm_compute; reflexivity. Qed.

(** C8 does not hold as stated: after a call on the caller's dict
    [{'symbol': 'ETHUSDT'}] that very dict holds [timestamp] and
    [signature]. *)
Lemma send_request_changes_callers_dict :
  let w := with_heap [[(lit "symbol", SStr (lit "ETHUSDT"))]] loaded in
  let w' := snd (_send_request (sample_env (Some (JObj []))) sample_trader
                   (lit "GET") (lit "/api/v3/openOrders") (Some 0%nat) w) in
  dict_get (lit "timestamp") (object 0%nat w) = None
  ∧ dict_get (lit "timestamp") (object 0%nat w') = Some (SStr (lit "1700000000000"))
  ∧ is_some (dict_get (lit "signature") (object 0%nat w')) = true
  ∧ length (heap w') = 1%nat.
Proof. vm_compute. repeat split. Qed.

(** C8, amended.  [_send_request] works on the caller's dict itself: no
    object is created, no other object changes, and after the call the
    caller's dict holds [timestamp] (and [signature], unless signing raised)
    next to its other entries, which are as before. *)
Theorem send_request_updates_callers_dict (E : environment) (self : MEXCTrader)
    (method endpoint : str) (p : ref) (w : world) (d : dict) :
  heap w !! p = Some d →
  let w' := snd (_send_request E self method endpoint (Some p) w) in
  let d1 := dict_set (lit "timestamp") (stamp E w) d in
  length (heap w') = length (heap w)
  ∧ (∀ q, q ≠ p → heap w' !! q = heap w !! q)
  ∧ match _generate_signature self d1 (stamp E w) with
    | Ok signature =>
        heap w' !! p = Some (dict_set (lit "signature") (SStr signature) d1)
    | Raise _ => heap w' !! p = Some d1
    end
  ∧ dict_get (lit "timestamp") (object p w') = Some (stamp E w)
  ∧ (∀ k, k ≠ lit "timestamp" → k ≠ lit "signature" →
       dict_get k (object p w') = dict_get k d).
Proof.
  intros Hp w' d1. subst w'.
  pose proof (lookup_lt_Some _ _ _ Hp) as Hlt.
  rewrite (send_request_ref E self method endpoint p w d Hp). cbv zeta.
  fold d1. unfold object.
  destruct (_generate_signature self d1 (stamp E w)) as [signature|e].
  - match goal with |- context [attempt E method ?u p ?h ?w0] =>
      destruct (attempt_cases E method u p h w0)
        as (j & w' & -> & Hh & _) end.
    cbn [snd]. rewrite Hh. cbn [heap with_heap with_ticks].
    rewrite length_insert, list_lookup_insert_eq by exact Hlt.
    repeat split.
    + intros q Hq. now rewrite list_lookup_insert_ne.
    + rewrite dict_get_set_ne by discriminate. apply dict_get_set_eq.
    + intros k Hk1 Hk2. unfold d1. rewrite !dict_get_set_ne by congruence.
      reflexivity.
  - cbn [snd heap with_heap with_ticks].
    rewrite length_insert, list_lookup_insert_eq by exact Hlt.
    repeat split.
    + intros q Hq. now rewrite list_lookup_insert_ne.
    + apply dict_get_set_eq.
    + intros k Hk1 Hk2. unfold d1. rewrite !dict_get_set_ne by congruence.
      reflexivity.
Qed.

Lemma send_request_updates_callers_dict_witness :
  let E := sample_env (Some (JObj [])) in
  let w := with_heap [[(lit "symbol", SStr (lit "ETHUSDT"))]] loaded in
  let w' := snd (_send_request E sample_trader (lit "GET")
                   (lit "/api/v3/openOrders") (Some 0%nat) w) in
  length (heap w') = length (heap w)
  ∧ dict_get (lit "timestamp") (object 0%nat w') = Some (stamp E w).
Proof.
  intros E w w'.
  destruct (send_request_updates_callers_dict E sample_trader (lit "GET")
              (lit "/api/v3/openOrders") 0%nat w
              [(lit "symbol", SStr (lit "ETHUSDT"))] eq_refl)
    as (Hlen & _ & _ & Hts & _).
  split; [exact Hlen|exact Hts].
Defined.

Lemma place_order_params_stamped (symbol : scalar) (side : str)
    (quantity : scalar) (order_type : str) (ts : scalar) :
  dict_set (lit "timestamp") ts (place_order_params symbol side quantity order_type)
  = place_order_params symbol side quantity order_type ++ [(lit "timestamp", ts)].
Proof. reflexivity. Qed.

Lemma place_order_params_signed (symbol : scalar) (side : str)
    (quantity : scalar) (order_type : str) (ts sig : scalar) :
  dict_set (lit "signature") sig
    (place_order_params symbol side quantity order_type ++ [(lit "timestamp", ts)])
  = place_order_params symbol side quantity order_type
      ++ [(lit "timestamp", ts); (lit "signature", sig)].
Proof. reflexivity. Qed.

Lemma encodable_stamp (E : environment) (w : world) :
  encodable (py_str (stamp E w)) = true.
Proof. apply encodable_decimal. Qed.

(** The text signed for an operation can be encoded when its inputs can. *)
Lemma place_order_signable (E : environment) (self : MEXCTrader)
    (symbol : scalar) (side : str) (quantity : scalar) (order_type : str) (w : world) :
  encodable (secret_key self) = true →
  op_encodable (PlaceOrder symbol side quantity order_type) = true →
  encodable (secret_key self)
  && encodable (query_string
                  (place_order_params symbol side quantity order_type
                     ++ [(lit "timestamp", stamp E w)]) (stamp E w)) = true.
Proof.
  intros Hs Hop. cbn [op_encodable] in Hop.
  apply andb_true_iff in Hop as [Hop Hq].
  apply andb_true_iff in Hop as [Hop Ht].
  apply andb_true_iff in Hop as [Hsym Hside].
  rewrite Hs, encodable_query_string, forallb_app, encodable_stamp.
  unfold place_order_params, item_encodable.
  cbn [forallb fst snd]. rewrite encodable_stamp. cbn [py_str].
  rewrite Hsym, Hside, Ht, Hq. reflexivity.
Qed.

(** C4 does not hold as stated: on a symbol that has no UTF-8 bytes
    (a lone surrogate, which a JSON payload can carry): the signing step
    raises and nothing is posted. *)
Lemma place_order_surrogate_symbol_not_posted :
  let run := place_order (sample_env (Some (JObj []))) sample_trader
               (SStr (lit "BTC" ++ [0xDFFF])) (lit "BUY") (SInt 50) (lit "MARKET")
               loaded in
  fst run = Raise UnicodeEncodeError ∧ sent (snd run) = [].
Proof. vm_compute. split; reflexivity. Qed.

(** The same with an API key that ends in a carriage return, a header
    value the library refuses: the call is made, the library raises inside
    the [try] before sending, nothing goes out and the result is [None]. *)
Example place_order_refused_nothing_out :
  let run := place_order refusing_env
               (MEXCTrader_init (lit "key" ++ [13]) (lit "secret"))
               (SStr (lit "BTCUSDT")) (lit "BUY") (SInt 50) (lit "MARKET")
               loaded in
  fst run = Ok (JAtom SNone) ∧ length (sent (snd run)) = 1%nat
  ∧ wire (snd run) = [].
Proof. vm_compute. repeat split. Qed.

(** C4, amended.  [place_order] always builds a mapping of exactly the four
    entries symbol, side, type and quoteOrderQty (the text of the quote
    amount), and the dict it leaves behind is that mapping followed by
    timestamp and, once signed, signature.  Whenever the secret and these
    texts can be encoded as UTF-8, it hands exactly one call to
    [requests.post], for /api/v3/order, whose JSON body is that mapping
    followed by timestamp and signature, and returns what [reply_result]
    reads from the outcome.  That POST goes out on the wire unless the
    library refuses the call before sending (a NaN in the body, an API key
    with CR, LF or leading whitespace); refused, nothing goes out and the
    result is [None]. *)
Theorem place_order_builds_and_posts (E : environment) (self : MEXCTrader)
    (symbol : scalar) (side : str) (quantity : scalar) (order_type : str) (w : world) :
  let d := place_order_params symbol side quantity order_type in
  let run := place_order E self symbol side quantity order_type w in
  (dict_ok d ∧ length d = 4%nat
   ∧ dict_get (lit "symbol") d = Some symbol
   ∧ dict_get (lit "side") d = Some (SStr side)
   ∧ dict_get (lit "type") d = Some (SStr order_type)
   ∧ dict_get (lit "quoteOrderQty") d = Some (SStr (py_str quantity)))
  ∧ place_order_params (SStr (lit "BTCUSDT")) (lit "BUY") (SInt 50) (lit "MARKET")
    = [(lit "symbol", SStr (lit "BTCUSDT")); (lit "side", SStr (lit "BUY"));
       (lit "type", SStr (lit "MARKET")); (lit "quoteOrderQty", SStr (lit "50"))]
  ∧ (∃ rest, heap (snd run) = heap w ++ [d ++ (lit "timestamp", stamp E w) :: rest]
             ∧ (rest = [] ∨ ∃ signature, rest = [(lit "signature", SStr signature)]))
  ∧ (encodable (secret_key self) = true →
     op_encodable (PlaceOrder symbol side quantity order_type) = true →
     ∃ signature,
       _generate_signature self (d ++ [(lit "timestamp", stamp E w)]) (stamp E w)
         = Ok signature
       ∧ let c := RequestsPost (base_url self ++ lit "/api/v3/order")
                    (d ++ [(lit "timestamp", stamp E w);
                           (lit "signature", SStr signature)])
                    (request_headers self) in
         sent (snd run) = sent w ++ [c]
         ∧ fst run = Ok (reply_result (exchange E c))
         ∧ (exchange E c = Refused →
              wire (snd run) = wire w ∧ fst run = Ok (JAtom SNone))
         ∧ (exchange E c ≠ Refused → wire (snd run) = wire w ++ [c])).
Proof.
  intros d run.
  assert (run = perform E self (PlaceOrder symbol side quantity order_type) w)
    as Hrun by reflexivity.
  rewrite perform_run in Hrun. cbn [op_params op_call] in Hrun. fold d in Hrun.
  split; [|split; [reflexivity|split]].
  - repeat split.
    apply (bool_decide_unpack _). vm_compute. reflexivity.
  - rewrite Hrun.
    destruct (_generate_signature self _ (stamp E w)) as [signature|e].
    + exists [(lit "signature", SStr signature)].
      split; [reflexivity|]. right. now exists signature.
    + exists []. split; [reflexivity|]. now left.
  - intros Hs Hop.
    destruct (generate_signature_Ok _ _ _ (place_order_signable E self _ _ _ _ w Hs Hop))
      as (key & msg & _ & _ & Hsig).
    fold d in Hsig. rewrite Hsig in Hrun.
    eexists. split; [exact Hsig|]. cbv zeta. rewrite Hrun.
    cbn [fst snd sent wire with_sent with_wire after_op].
    split; [reflexivity|]. split; [reflexivity|]. split.
    + intros H. rewrite (delivered_refused _ _ H), H, app_nil_r.
      split; reflexivity.
    + intros H. now rewrite (delivered_sent _ _ H).
Qed.

Lemma place_order_builds_and_posts_witness :
  let E := sample_env (Some (JObj [])) in
  let d := place_order_params (SStr (lit "BTCUSDT")) (lit "BUY") (SInt 50) (lit "MARKET") in
  let run := place_order E sample_trader (SStr (lit "BTCUSDT")) (lit "BUY")
               (SInt 50) (lit "MARKET") loaded in
  ∃ signature,
    _generate_signature sample_trader
      (d ++ [(lit "timestamp", stamp E loaded)]) (stamp E loaded) = Ok signature
    ∧ let c := RequestsPost (base_url sample_trader ++ lit "/api/v3/order")
                 (d ++ [(lit "timestamp", stamp E loaded);
                        (lit "signature", SStr signature)])
                 (request_headers sample_trader) in
      sent (snd run) = [c] ∧ fst run = Ok (JObj []) ∧ wire (snd run) = [c].
Proof.
  intros E d run.
  destruct (place_order_builds_and_posts E sample_trader (SStr (lit "BTCUSDT"))
              (lit "BUY") (SInt 50) (lit "MARKET") loaded)
    as (_ & _ & _ & H).
  destruct (H eq_refl eq_refl) as (signature & Hsig & Hsent & Hres & _ & Hwire).
  exists signature. split; [exact Hsig|]. cbv zeta.
  split; [exact Hsent|]. split; [exact Hres|]. apply Hwire. discriminate.
Defined.

Lemma cancel_all_orders_signable (E : environment) (self : MEXCTrader)
    (symbol : scalar) (w : world) :
  encodable (secret_key self) = true →
  encodable (py_str symbol) = true →
  encodable (secret_key self)
  && encodable (query_string
                  (dict_set (lit "timestamp") (stamp E w) [(lit "symbol", symbol)])
                  (stamp E w)) = true.
Proof.
  intros Hs Hsym.
  change (dict_set (lit "timestamp") (stamp E w) [(lit "symbol", symbol)])
    with [(lit "symbol", symbol); (lit "timestamp", stamp E w)].
  rewrite Hs, encodable_query_string, encodable_stamp.
  unfold item_encodable. cbn [forallb fst snd].
  rewrite encodable_stamp, Hsym. reflexivity.
Qed.

Lemma get_account_info_signable (E : environment) (self : MEXCTrader) (w : world) :
  encodable (secret_key self) = true →
  encodable (secret_key self)
  && encodable (query_string (dict_set (lit "timestamp") (stamp E w) [])
                  (stamp E w)) = true.
Proof.
  intros Hs.
  change (dict_set (lit "timestamp") (stamp E w) [])
    with [(lit "timestamp", stamp E w)].
  rewrite Hs, encodable_query_string, encodable_stamp.
  unfold item_encodable. cbn [forallb fst snd].
  rewrite encodable_stamp. reflexivity.
Qed.

(** With text that can be encoded, every operation returns: [place_order]
    and [get_account_info] after exactly one call, with what [reply_result]
    reads from the answer; [cancel_all_orders] after none, with [None]. *)
Lemma perform_returns (E : environment) (self : MEXCTrader)
    (op : client_call) (w : world) :
  encodable (secret_key self) = true →
  op_encodable op = true →
  ∃ result w',
    perform E self op w = (Ok result, w')
    ∧ match op with
      | CancelAllOrders _ => sent w' = sent w ∧ result = JAtom SNone
      | _ => ∃ c, sent w' = sent w ++ [c] ∧ result = reply_result (exchange E c)
      end.
Proof.
  intros Hs Hop. destruct op as [symbol side quantity order_type| |symbol];
    cbn [perform].
  - rewrite place_order_run.
    rewrite (send_request_ref E self _ _ _ _
               (place_order_params symbol side quantity order_type))
      by apply lookup_new.
    cbv zeta. rewrite place_order_params_stamped.
    change (stamp E (with_heap _ (with_entered _ w))) with (stamp E w).
    destruct (generate_signature_Ok _ _ _
                (place_order_signable E self _ _ _ _ w Hs Hop))
      as (key & msg & _ & _ & ->).
    rewrite attempt_POST. eexists _, _. split; [reflexivity|].
    eexists. split; reflexivity.
  - rewrite get_account_info_run.
    rewrite (send_request_ref E self _ _ _ _ []) by apply lookup_new.
    cbv zeta.
    change (stamp E (with_heap _ (with_entered _ w))) with (stamp E w).
    destruct (generate_signature_Ok _ _ _ (get_account_info_signable E self w Hs))
      as (key & msg & _ & _ & ->).
    rewrite attempt_GET. eexists _, _. split; [reflexivity|].
    eexists. split; reflexivity.
  - cbn [op_encodable] in Hop. rewrite cancel_all_orders_run.
    rewrite (send_request_ref E self _ _ _ _ [(lit "symbol", symbol)])
      by apply lookup_new.
    cbv zeta.
    change (stamp E (with_heap _ (with_entered _ w))) with (stamp E w).
    destruct (generate_signature_Ok _ _ _
                (cancel_all_orders_signable E self symbol w Hs Hop))
      as (key & msg & _ & _ & ->).
    rewrite attempt_other by reflexivity. eexists _, _. split; [reflexivity|].
    split; reflexivity.
Qed.

(** C7 does not hold as stated: the signing step is outside the
    [try] statement, so on a symbol that has no UTF-8 bytes (a lone
    surrogate) [place_order] and [cancel_all_orders] raise. *)
Lemma operations_raise_on_surrogate :
  fst (place_order (sample_env (Some (JObj []))) sample_trader
         (SStr [0xD800]) (lit "BUY") (SInt 10) (lit "MARKET") loaded)
  = Raise UnicodeEncodeError
  ∧ fst (cancel_all_orders (sample_env (Some (JObj []))) sample_trader
           (SStr [0xD800]) loaded)
    = Raise UnicodeEncodeError.
Proof. vm_compute. split; reflexivity. Qed.

(** C7, amended.  When the secret and the texts handed to the signing code
    can be encoded as UTF-8, no operation raises and none sends more than
    one call; [place_order] and [get_account_info] send exactly one and
    return what [reply_result] reads from the answer: [None] when there is
    no response, a 4xx or 5xx status, or a body that is not JSON, and the
    parsed body otherwise. *)
Theorem operations_return (E : environment) (self : MEXCTrader)
    (op : client_call) (w : world) :
  encodable (secret_key self) = true →
  op_encodable op = true →
  (∃ result w',
     perform E self op w = (Ok result, w')
     ∧ (length (sent w') ≤ length (sent w) + 1)%nat
     ∧ match op with
       | CancelAllOrders _ => True
       | _ => ∃ c, sent w' = sent w ++ [c] ∧ result = reply_result (exchange E c)
       end)
  ∧ reply_result NoReply = JAtom SNone
  ∧ (∀ st body, (400 ≤ st < 600)%Z → reply_result (Reply st body) = JAtom SNone)
  ∧ (∀ st, reply_result (Reply st None) = JAtom SNone)
  ∧ (∀ st j, ¬ (400 ≤ st < 600)%Z → reply_result (Reply st (Some j)) = j).
Proof.
  intros Hs Hop. split; [|split; [reflexivity|split; [|split]]].
  - destruct (perform_returns E self op w Hs Hop) as (result & w' & Hrun & Hres).
    exists result, w'. split; [exact Hrun|].
    destruct op as [symbol side quantity order_type| |symbol].
    + destruct Hres as (c & Hsent & ->). split; [|now exists c].
      rewrite Hsent, length_app. simpl. lia.
    + destruct Hres as (c & Hsent & ->). split; [|now exists c].
      rewrite Hsent, length_app. simpl. lia.
    + destruct Hres as [-> _]. split; [lia|exact I].
  - intros st body [H1 H2]. cbn [reply_result].
    apply Z.leb_le in H1. apply Z.ltb_lt in H2. now rewrite H1, H2.
  - intros st. cbn [reply_result]. now destruct (_ && _).
  - intros st j H. cbn [reply_result].
    destruct (Z.leb_spec 400 st), (Z.ltb_spec st 600); try reflexivity.
    exfalso. apply H. lia.
Qed.

Lemma operations_return_witness :
  let E := sample_env (Some (JObj [])) in
  ∃ result w',
    perform E sample_trader GetAccountInfo loaded = (Ok result, w')
    ∧ (length (sent w') ≤ length (sent loaded) + 1)%nat
    ∧ ∃ c, sent w' = sent loaded ++ [c] ∧ result = reply_result (exchange E c).
Proof.
  intros E.
  destruct (operations_return E sample_trader GetAccountInfo loaded eq_refl eq_refl)
    as [H _].
  exact H.
Defined.

(** ** The router *)

Lemma perform_entered (E : environment) (self : MEXCTrader)
    (op : client_call) (w : world) :
  entered (snd (perform E self op w)) = entered w ++ [op]
  ∧ trader (snd (perform E self op w)) = trader w.
Proof.
  destruct op as [symbol side quantity order_type| |symbol]; cbn [perform].
  - rewrite place_order_run.
    edestruct (send_request_cases E self (lit "POST") (lit "/api/v3/order"))
      as (r & w' & -> & Ht & He & _); [apply lookup_new|].
    cbn [snd]. now rewrite Ht, He.
  - rewrite get_account_info_run.
    edestruct (send_request_cases E self (lit "GET") (lit "/api/v3/account"))
      as (r & w' & -> & Ht & He & _); [apply lookup_new|].
    cbn [snd]. now rewrite Ht, He.
  - rewrite cancel_all_orders_run.
    edestruct (send_request_cases E self (lit "DELETE") (lit "/api/v3/openOrders"))
      as (r & w' & -> & Ht & He & _); [apply lookup_new|].
    cbn [snd]. now rewrite Ht, He.
Qed.

Lemma ensure_trader_ready (E : environment) (w : world) :
  trader_ready E w = true →
  ∃ tr w1, ensure_trader E w = (Ok (Some tr), w1)
    ∧ trader w1 = Some tr ∧ heap w1 = heap w ∧ sent w1 = sent w
    ∧ ticks w1 = ticks w ∧ entered w1 = entered w.
Proof.
  unfold trader_ready, ensure_trader, bind, get_trader.
  destruct (trader w) as [tr|] eqn:Ht; cbn [is_some orb].
  - intros _. exists tr, w. now rewrite Ht.
  - unfold initialize_trader.
    destruct (MEXC_API_KEY E) as [[|k0 k]|], (MEXC_SECRET_KEY E) as [[|s0 s]|];
      cbn [configured andb]; try discriminate.
    intros _. eexists _, _. repeat split.
Qed.

Lemma ensure_trader_unconfigured (E : environment) (w : world) :
  trader w = None →
  MEXC_API_KEY E = None ∨ MEXC_SECRET_KEY E = None →
  ensure_trader E w = (Ok None, w).
Proof.
  intros Ht Hc. unfold ensure_trader, bind, get_trader, initialize_trader.
  rewrite Ht.
  destruct Hc as [-> | ->]; [|destruct (MEXC_API_KEY E)];
    unfold ret; now rewrite Ht.
Qed.

(** The handler on an object payload, once the trader is there: the routing
    table, then the operation, then the report. *)
Lemma webhook_run (E : environment) (fields : dict) (w w1 : world) (tr : MEXCTrader) :
  ensure_trader E w = (Ok (Some tr), w1) →
  webhook E (BodyObject fields) w =
  match spec_route (action_of fields) (symbol_of fields) (quantity_of fields) with
  | None =>
      (Ok {| status := 400; payload := ErrorBody (Text (lit "Invalid action")) |}, w1)
  | Some (op, message) =>
      match perform E tr op w1 with
      | (Ok result, w') => (Ok (report result message), w')
      | (Raise e, w') => (Ok {| status := 500; payload := ErrorBody (StrOf e) |}, w')
      end
  end.
Proof.
  intros Hready.
  unfold webhook, try_except, bind, get_json, data_get, ret.
  rewrite Hready. unfold spec_route.
  fold (action_of fields) (symbol_of fields) (quantity_of fields).
  destruct (is_in (action_of fields) [lit "buy"; lit "long"]).
  { cbn [perform]. now destruct (place_order E tr _ _ _ _ w1) as [[result|e] w']. }
  destruct (is_in (action_of fields) [lit "sell"; lit "short"]).
  { cbn [perform]. now destruct (place_order E tr _ _ _ _ w1) as [[result|e] w']. }
  destruct (is_in (action_of fields) [lit "close_long"; lit "close_short"; lit "close"]).
  { cbn [perform]. now destruct (cancel_all_orders E tr _ w1) as [[result|e] w']. }
  reflexivity.
Qed.

Lemma is_in_false (v : scalar) (choices : list str) :
  (∀ s, s ∈ choices → v ≠ SStr s) → is_in v choices = false.
Proof.
  intros H. unfold is_in. induction choices as [|c choices IH]; [reflexivity|].
  cbn [existsb]. rewrite IH by (intros s Hs; apply H; now right).
  rewrite orb_false_r. destruct v as [| | | |s]; try reflexivity.
  cbn [eq_str]. apply str_eqb_neq. intros ->. apply (H c); [left|reflexivity].
Qed.

Lemma spec_route_unrecognized (action symbol quantity : scalar) :
  (∀ s, s ∈ recognized_actions → action ≠ SStr s) →
  spec_route action symbol quantity = None.
Proof.
  intros Hno. unfold spec_route.
  rewrite !is_in_false; [reflexivity|..];
    intros s Hs; apply Hno; unfold recognized_actions;
    apply list_elem_of_In; apply list_elem_of_In in Hs; cbn [In] in *; tauto.
Qed.

(** C5.  With the trader initialized, a webhook whose action is buy or
    long enters [place_order] once with side BUY, sell or short once with
    side SELL, close_long, close_short or close enters [cancel_all_orders]
    once and [place_order] never; any other action value is answered with
    400 "Invalid action" and no operation of the client is entered and
    nothing is sent.  A buy and a long for the same symbol and quantity run
    identically. *)
Theorem webhook_routes_actions (E : environment) (fields : dict) (w : world) :
  trader_ready E w = true →
  let action := action_of fields in
  let symbol := symbol_of fields in
  let quantity := quantity_of fields in
  (∃ resp w',
     webhook E (BodyObject fields) w = (Ok resp, w')
     ∧ (action = SStr (lit "buy") ∨ action = SStr (lit "long") →
          entered w' = entered w
                         ++ [PlaceOrder symbol (lit "BUY") quantity (lit "MARKET")])
     ∧ (action = SStr (lit "sell") ∨ action = SStr (lit "short") →
          entered w' = entered w
                         ++ [PlaceOrder symbol (lit "SELL") quantity (lit "MARKET")])
     ∧ (action = SStr (lit "close_long") ∨ action = SStr (lit "close_short")
        ∨ action = SStr (lit "close") →
          entered w' = entered w ++ [CancelAllOrders symbol])
     ∧ ((∀ s, s ∈ recognized_actions → action ≠ SStr s) →
          entered w' = entered w ∧ sent w' = sent w
          ∧ resp = {| status := 400;
                      payload := ErrorBody (Text (lit "Invalid action")) |}))
  ∧ (∀ fields2,
       action = SStr (lit "buy") →
       action_of fields2 = SStr (lit "long") →
       symbol_of fields2 = symbol →
       quantity_of fields2 = quantity →
       webhook E (BodyObject fields2) w = webhook E (BodyObject fields) w).
Proof.
  intros Hready action symbol quantity.
  destruct (ensure_trader_ready E w Hready)
    as (tr & w1 & Hrun & _ & _ & Hs1 & _ & He1).
  split.
  - rewrite (webhook_run E fields w w1 tr Hrun).
    fold action symbol quantity.
    assert (∀ op message,
              spec_route action symbol quantity = Some (op, message) →
              ∃ resp w',
                match perform E tr op w1 with
                | (Ok result, w') => (Ok (report result message), w')
                | (Raise e, w') =>
                    (Ok {| status := 500; payload := ErrorBody (StrOf e) |}, w')
                end = (Ok resp, w')
                ∧ entered w' = entered w ++ [op]) as Hop.
    { intros op message _.
      destruct (perform_entered E tr op w1) as [He _].
      destruct (perform E tr op w1) as [[result|e] w'];
        eexists _, _; (split; [reflexivity|]); cbn [snd] in He;
        now rewrite He, He1. }
    destruct (spec_route action symbol quantity) as [[op message]|] eqn:Hr.
    + destruct (Hop op message eq_refl) as (resp & w' & -> & He).
      exists resp, w'. split; [reflexivity|].
      split; [|split; [|split]]; [unfold spec_route in Hr..|].
      * intros [Ha|Ha]; rewrite Ha in Hr; injection Hr as <- _; exact He.
      * intros [Ha|Ha]; rewrite Ha in Hr; injection Hr as <- _; exact He.
      * intros [Ha|[Ha|Ha]]; rewrite Ha in Hr; injection Hr as <- _; exact He.
      * intros Hno. rewrite (spec_route_unrecognized _ _ _ Hno) in Hr. discriminate.
    + eexists _, _. split; [reflexivity|].
      unfold spec_route in Hr.
      split; [|split; [|split]].
      * intros [Ha|Ha]; rewrite Ha in Hr; discriminate Hr.
      * intros [Ha|Ha]; rewrite Ha in Hr; discriminate Hr.
      * intros [Ha|[Ha|Ha]]; rewrite Ha in Hr; discriminate Hr.
      * intros _. repeat split; [exact He1|exact Hs1].
  - intros fields2 Ha Ha2 Hsym Hq.
    rewrite (webhook_run E fields w w1 tr Hrun), (webhook_run E fields2 w w1 tr Hrun).
    fold action symbol quantity. rewrite Ha2, Hsym, Hq, Ha. reflexivity.
Qed.

Lemma webhook_routes_actions_witness :
  let E := sample_env (Some (JObj [])) in
  let fields := [(lit "action", SStr (lit "close"));
                 (lit "symbol", SStr (lit "ETHUSDT"))] in
  ∃ resp w',
    webhook E (BodyObject fields) loaded = (Ok resp, w')
    ∧ entered w' = entered loaded ++ [CancelAllOrders (SStr (lit "ETHUSDT"))].
Proof.
  intros E fields.
  destruct (webhook_routes_actions E fields loaded eq_refl)
    as [(resp & w' & Hrun & _ & _ & Hclose & _) _].
  exists resp, w'. split; [exact Hrun|].
  apply Hclose. right. right. reflexivity.
Defined.

(** ** A process without credentials *)

Lemma serve_unconfigured (E : environment) (r : request) (w : world) :
  MEXC_API_KEY E = None ∨ MEXC_SECRET_KEY E = None →
  trader w = None →
  serve E r w = (unconfigured_reply r, w).
Proof.
  intros Hc Ht. pose proof (ensure_trader_unconfigured E w Ht Hc) as Hen.
  unfold serve. destruct r as [|body| |]; cbn [route unconfigured_reply].
  - reflexivity.
  - unfold webhook, try_except, bind, get_json.
    destruct body as [e| |fields]; [reflexivity|..]; unfold ret; now rewrite Hen.
  - unfold status_route, bind. now rewrite Hen.
  - unfold test_trade, bind. now rewrite Hen.
Qed.

(** C6 does not hold as stated: on a /webhook request whose body
    cannot be read: the answer is the reading error, not the
    initialization error. *)
Lemma unreadable_webhook_without_credentials :
  fst (serve no_secret_env
         (PostWebhook (BodyUnreadable (BadRequest (lit "Failed to decode JSON object"))))
         loaded)
  = {| status := 500;
       payload := ErrorBody (StrOf (BadRequest (lit "Failed to decode JSON object"))) |}
  ∧ payload (fst (serve no_secret_env
         (PostWebhook (BodyUnreadable (BadRequest (lit "Failed to decode JSON object"))))
         loaded))
    ≠ ErrorBody (Text (lit "MEXC trader not initialized")).
Proof. split; [reflexivity|discriminate]. Qed.

(** C6, amended.  When MEXC_API_KEY or MEXC_SECRET_KEY is absent, the
    trader is never constructed, whether or not the process ran
    [initialize_trader] at start, and no request changes the world: nothing
    is sent and no operation of the client is entered.  Every /webhook
    request whose body can be read is answered with 500 "MEXC trader not
    initialized", every /test request with 500 "Trader not initialized"; a
    /webhook request whose body cannot be read is answered with 500 and the
    reading error. *)
Theorem unconfigured_process (E : environment) (rs : list request) (w : world) :
  MEXC_API_KEY E = None ∨ MEXC_SECRET_KEY E = None →
  trader w = None →
  started E = loaded
  ∧ serve_all E rs w = (map unconfigured_reply rs, w)
  ∧ trader (snd (serve_all E rs w)) = None
  ∧ sent (snd (serve_all E rs w)) = sent w
  ∧ entered (snd (serve_all E rs w)) = entered w.
Proof.
  intros Hc Ht.
  assert (serve_all E rs w = (map unconfigured_reply rs, w)) as Hrun.
  { induction rs as [|r rs IH]; [reflexivity|].
    cbn [serve_all map]. now rewrite (serve_unconfigured E r w Hc Ht), IH. }
  rewrite Hrun. repeat split; [|exact Ht].
  unfold started, initialize_trader.
  destruct Hc as [-> | ->]; [|destruct (MEXC_API_KEY E)]; reflexivity.
Qed.

Lemma unconfigured_process_witness :
  let rs := [PostWebhook (BodyObject [(lit "action", SStr (lit "buy"))]); PostTest] in
  serve_all no_secret_env rs loaded = (map unconfigured_reply rs, loaded)
  ∧ trader (snd (serve_all no_secret_env rs loaded)) = None
  ∧ sent (snd (serve_all no_secret_env rs loaded)) = sent loaded.
Proof.
  intros rs.
  destruct (unconfigured_process no_secret_env rs loaded (or_intror eq_refl) eq_refl)
    as (_ & Hrun & Ht & Hs & _).
  repeat split; assumption.
Defined.

(** ** Truthiness of the result *)

Lemma perform_result (E : environment) (self : MEXCTrader) (op : client_call)
    (w : world) (r : http_reply) :
  (∀ c, exchange E c = r) →
  encodable (secret_key self) = true →
  op_encodable op = true →
  ∃ w', perform E self op w
        = (Ok match op with
              | CancelAllOrders _ => JAtom SNone
              | _ => reply_result r
              end, w').
Proof.
  intros Hr Hs Hop.
  destruct (perform_returns E self op w Hs Hop) as (result & w' & Hrun & Hres).
  exists w'. rewrite Hrun.
  destruct op as [symbol side quantity order_type| |symbol].
  - destruct Hres as (c & _ & ->). now rewrite Hr.
  - destruct Hres as (c & _ & ->). now rewrite Hr.
  - now destruct Hres as [_ ->].
Qed.

(** C10.  The handler answers 200 with the success envelope exactly when
    the operation of the client returned a truthy result; a result that is
    not truthy is answered with 500 "Trade failed", and an exception with
    500 and its text.  So for every recognized action, when the exchange
    answers every call with the same reply and what the client reads from
    that reply is not truthy -- a successful answer whose JSON body is [{}]
    just as no answer at all -- the webhook is answered with
    500 "Trade failed". *)
Theorem webhook_reports_truthy_result (E : environment) (fields : dict)
    (w w1 : world) (tr : MEXCTrader) (op : client_call) (message : str) :
  ensure_trader E w = (Ok (Some tr), w1) →
  spec_route (action_of fields) (symbol_of fields) (quantity_of fields)
    = Some (op, message) →
  (∃ resp w',
     webhook E (BodyObject fields) w = (Ok resp, w')
     ∧ match fst (perform E tr op w1) with
       | Ok result =>
           (truthy result = true →
              resp = {| status := 200; payload := TradeSuccess message result |})
           ∧ (truthy result = false →
                resp = {| status := 500;
                          payload := ErrorBody (Text (lit "Trade failed")) |})
           ∧ (status resp = 200%Z ↔ truthy result = true)
       | Raise e =>
           resp = {| status := 500; payload := ErrorBody (StrOf e) |}
       end)
  ∧ (∀ r,
       (∀ c, exchange E c = r) →
       truthy (reply_result r) = false →
       encodable (secret_key tr) = true →
       op_encodable op = true →
       fst (webhook E (BodyObject fields) w)
       = Ok {| status := 500; payload := ErrorBody (Text (lit "Trade failed")) |}).
Proof.
  intros Hready Hrouted.
  rewrite (webhook_run E fields w w1 tr Hready), Hrouted. split.
  - destruct (perform E tr op w1) as [[result|e] w']; eexists _, _;
      (split; [reflexivity|]); cbn [fst]; [|reflexivity].
    unfold report. destruct (truthy result); cbn [status].
    + repeat split; intros; congruence.
    + repeat split; intros; try congruence; discriminate.
  - intros r Hr Hfalsy Hs Hop.
    destruct (perform_result E tr op w1 r Hr Hs Hop) as (w' & ->).
    cbn [fst]. unfold report.
    destruct op; cbn [truthy scalar_truthy]; now rewrite ?Hfalsy.
Qed.

Lemma webhook_reports_truthy_result_witness :
  let E := sample_env (Some (JObj [])) in
  let fields := [(lit "action", SStr (lit "buy"))] in
  fst (webhook E (BodyObject fields) loaded)
  = Ok {| status := 500; payload := ErrorBody (Text (lit "Trade failed")) |}.
Proof.
  intros E fields.
  destruct (webhook_reports_truthy_result E fields loaded
              (with_trader (Some sample_trader) loaded) sample_trader
              (PlaceOrder (SStr (lit "BTCUSDT")) (lit "BUY") (SInt 10) (lit "MARKET"))
              (msg_long (SStr (lit "BTCUSDT")) (SInt 10))
              eq_refl eq_refl) as [_ H].
  apply (H (Reply 200 (Some (JObj [])))); reflexivity.
Defined.

(** * Further properties of the code *)

(** ** More on the signature *)

Lemma signable_spec (self : MEXCTrader) (d : dict) (ts : scalar) :
  signable self d ts
  = encodable (secret_key self) && encodable (query_string d ts).
Proof.
  unfold signable. rewrite encodable_query_string.
  now rewrite andb_assoc.
Qed.

(** X1.  [_generate_signature] returns a digest of 64 lowercase hexadecimal
    digits exactly when the secret, every key, every value text and the
    timestamp text can be encoded as UTF-8; otherwise it raises
    UnicodeEncodeError, and it raises nothing else. *)
Theorem generate_signature_outcome (self : MEXCTrader) (d : dict) (ts : scalar) :
  match _generate_signature self d ts with
  | Ok signature =>
      signable self d ts = true
      ∧ length signature = 64%nat ∧ Forall lower_hex signature
  | Raise e => signable self d ts = false ∧ e = UnicodeEncodeError
  end.
Proof.
  rewrite signable_spec.
  destruct (encodable (secret_key self) && encodable (query_string d ts)) eqn:H.
  - destruct (generate_signature_Ok self d ts H) as (key & msg & _ & _ & ->).
    split; [reflexivity|]. split.
    + now rewrite hexdigest_length, hmac_sha256_length.
    + apply hexdigest_lower.
  - rewrite (generate_signature_Raise self d ts H). now split.
Qed.

(** X2.  Values are written into the signed text as they are: a value that
    itself reads "v1&k2=v2" signs like the two parameters k1=v1 and k2=v2. *)
Theorem generate_signature_values_not_escaped (self : MEXCTrader)
    (k1 v1 k2 v2 : str) (ts : scalar) :
  str_ltb k1 k2 = true →
  _generate_signature self [(k1, SStr v1); (k2, SStr v2)] ts
  = _generate_signature self [(k1, SStr (v1 ++ lit "&" ++ k2 ++ lit "=" ++ v2))] ts.
Proof.
  intros Hlt. unfold _generate_signature, query_string.
  cbn [sorted insort]. unfold item_ltb. cbn [fst].
  rewrite (str_ltb_asym k1 k2 Hlt).
  unfold key_value. cbn [map join fst snd py_str].
  now rewrite <- !app_assoc.
Qed.

Lemma generate_signature_values_not_escaped_witness :
  _generate_signature sample_trader
    [(lit "side", SStr (lit "BUY")); (lit "symbol", SStr (lit "BTCUSDT"))]
    (SInt 1700000000000)
  = _generate_signature sample_trader
      [(lit "side", SStr (lit "BUY" ++ lit "&" ++ lit "symbol" ++ lit "=" ++ lit "BTCUSDT"))]
      (SInt 1700000000000).
Proof.
  apply (generate_signature_values_not_escaped sample_trader
           (lit "side") (lit "BUY") (lit "symbol") (lit "BTCUSDT")).
  reflexivity.
Defined.

Lemma insort_same_text (x y : item) (l l' : list item) :
  same_text x y → Forall2 same_text l l' →
  Forall2 same_text (insort x l) (insort y l').
Proof.
  intros Hxy Hl. induction Hl as [|a b l l' Hab Hl IH]; cbn [insort].
  - constructor; [exact Hxy|constructor].
  - unfold item_ltb. destruct Hxy as [Hk Hv], Hab as [Hk' Hv'].
    rewrite <- Hk, <- Hk'.
    destruct (str_ltb (fst a) (fst x)).
    + constructor; [now split|exact IH].
    + constructor; [now split|]. constructor; [now split|exact Hl].
Qed.

Lemma sorted_same_text (l l' : list item) :
  Forall2 same_text l l' → Forall2 same_text (sorted l) (sorted l').
Proof.
  induction 1 as [|x y l l' Hxy Hl IH]; cbn [sorted]; [constructor|].
  now apply insort_same_text.
Qed.

Lemma key_values_same_text (l l' : list item) :
  Forall2 same_text l l' → map key_value l = map key_value l'.
Proof.
  induction 1 as [|x y l l' [Hk Hv] Hl IH]; cbn [map]; [reflexivity|].
  unfold key_value at 1 3. now rewrite Hk, Hv, IH.
Qed.

(** X3.  The signature reads a value, and the timestamp, only through its
    text [str(v)]: mappings that agree entry by entry on the keys and on
    the value texts get the same signature, so the number 50 signs like
    the string "50". *)
Theorem generate_signature_by_text (self : MEXCTrader) (d d' : dict)
    (ts ts' : scalar) :
  Forall2 same_text d d' →
  py_str ts = py_str ts' →
  _generate_signature self d ts = _generate_signature self d' ts'.
Proof.
  intros Hd Hts. unfold _generate_signature, query_string.
  now rewrite (key_values_same_text _ _ (sorted_same_text _ _ Hd)), Hts.
Qed.

Lemma generate_signature_by_text_witness :
  _generate_signature sample_trader
    [(lit "quoteOrderQty", SInt 50)] (SInt 1700000000000)
  = _generate_signature sample_trader
      [(lit "quoteOrderQty", SStr (lit "50"))] (SStr (lit "1700000000000")).
Proof.
  apply generate_signature_by_text.
  - constructor; [split; reflexivity|constructor].
  - reflexivity.
Defined.

(** ** More on the operations *)

(** What an operation leaves behind, whatever the exchange does. *)
Lemma perform_summary (E : environment) (self : MEXCTrader) (op : client_call)
    (w : world) :
  let w' := snd (perform E self op w) in
  trader w' = trader w
  ∧ entered w' = entered w ++ [op]
  ∧ ticks w' = S (ticks w)
  ∧ (sent w' = sent w
     ∨ ∃ signature c,
         op_call self op (op_params op ++ [(lit "timestamp", stamp E w);
                                           (lit "signature", SStr signature)])
           = Some c
         ∧ sent w' = sent w ++ [c]
         ∧ fst (perform E self op w) = Ok (reply_result (exchange E c))).
Proof.
  rewrite perform_run.
  destruct (_generate_signature self _ (stamp E w)) as [signature|e].
  - cbv zeta.
    destruct (op_call self op _) as [c|] eqn:Hc; cbn [snd fst];
      repeat split; try reflexivity.
    + right. exists signature, c. now rewrite Hc.
    + now left.
  - cbn [snd]. repeat split. now left.
Qed.

(** X4.  With a secret that can be encoded, [get_account_info] makes a new
    dict and leaves every existing one alone, signs the text
    timestamp=T&timestamp=T, and hands exactly one call to [requests.get]:
    a GET of /api/v3/account whose query parameters are timestamp and
    signature, with the API key in the header and nowhere else.  It returns
    what [reply_result] reads from the outcome of that call.  The request
    goes out on the wire unless the library refuses the call before sending
    (an API key with CR, LF or leading whitespace makes it raise
    InvalidHeader); refused, nothing goes out and the result is [None]. *)
Theorem get_account_info_call (E : environment) (self : MEXCTrader) (w : world) :
  encodable (secret_key self) = true →
  let ts := stamp E w in
  ∃ signature,
    _generate_signature self [(lit "timestamp", ts)] ts = Ok signature
    ∧ query_string [(lit "timestamp", ts)] ts
      = lit "timestamp=" ++ py_str ts ++ lit "&timestamp=" ++ py_str ts
    ∧ let d := [(lit "timestamp", ts); (lit "signature", SStr signature)] in
      let c := RequestsGet (base_url self ++ lit "/api/v3/account") d
                 [(lit "X-MEXC-APIKEY", api_key self);
                  (lit "Content-Type", lit "application/json")] in
      get_account_info E self w
      = (Ok (reply_result (exchange E c)),
         {| heap := heap w ++ [d]; trader := trader w;
            sent := sent w ++ [c]; ticks := S (ticks w);
            entered := entered w ++ [GetAccountInfo];
            wire := wire w ++ delivered E c |})
      ∧ (exchange E c = Refused →
           delivered E c = []
           ∧ fst (get_account_info E self w) = Ok (JAtom SNone))
      ∧ (exchange E c ≠ Refused → delivered E c = [c]).
Proof.
  intros Hs ts.
  destruct (generate_signature_Ok _ _ _ (get_account_info_signable E self w Hs))
    as (key & msg & _ & _ & Hsig).
  change (dict_set (lit "timestamp") (stamp E w) [])
    with [(lit "timestamp", ts)] in Hsig. fold ts in Hsig.
  eexists. split; [exact Hsig|]. split; [reflexivity|].
  cbv zeta.
  change (get_account_info E self w) with (perform E self GetAccountInfo w).
  rewrite perform_run. cbn [op_params app]. fold ts. rewrite Hsig.
  split; [reflexivity|]. cbv zeta. cbn [op_call fst].
  unfold delivered, request_headers. split.
  - intros ->. split; reflexivity.
  - intros H. now destruct (exchange E _).
Qed.

Lemma get_account_info_call_witness :
  let E := sample_env (Some (JObj [])) in
  let ts := stamp E loaded in
  ∃ signature,
    _generate_signature sample_trader [(lit "timestamp", ts)] ts = Ok signature
    ∧ query_string [(lit "timestamp", ts)] ts
      = lit "timestamp=" ++ py_str ts ++ lit "&timestamp=" ++ py_str ts
    ∧ let d := [(lit "timestamp", ts); (lit "signature", SStr signature)] in
      let c := RequestsGet (base_url sample_trader ++ lit "/api/v3/account") d
                 [(lit "X-MEXC-APIKEY", api_key sample_trader);
                  (lit "Content-Type", lit "application/json")] in
      get_account_info E sample_trader loaded
      = (Ok (reply_result (exchange E c)),
         {| heap := heap loaded ++ [d]; trader := trader loaded;
            sent := sent loaded ++ [c]; ticks := S (ticks loaded);
            entered := entered loaded ++ [GetAccountInfo];
            wire := wire loaded ++ delivered E c |})
      ∧ (exchange E c = Refused →
           delivered E c = []
           ∧ fst (get_account_info E sample_trader loaded) = Ok (JAtom SNone))
      ∧ (exchange E c ≠ Refused → delivered E c = [c]).
Proof.
  intros E ts.
  apply (get_account_info_call E sample_trader loaded). reflexivity.
Defined.

Lemma dict_get_None_keys (k : str) (d : dict) :
  dict_get k d = None ↔ k ∉ map fst d.
Proof.
  induction d as [|[k' v] d IH]; cbn [dict_get map fst].
  - split; [intros _; apply not_elem_of_nil|reflexivity].
  - rewrite not_elem_of_cons. destruct (str_eqb k' k) eqn:Hk.
    + apply str_eqb_eq in Hk. subst k'. split; [discriminate|intros [H _]; congruence].
    + apply str_eqb_neq in Hk. rewrite IH. split; [intros H; split; congruence|tauto].
Qed.

Lemma dict_set_keys (k : str) (v : scalar) (d : dict) :
  map fst (dict_set k v d)
  = match dict_get k d with
    | Some _ => map fst d
    | None => map fst d ++ [k]
    end.
Proof.
  induction d as [|[k' v'] d IH]; cbn [dict_get dict_set map fst app]; [reflexivity|].
  destruct (str_eqb k' k); cbn [map fst]; [reflexivity|].
  rewrite IH. now destruct (dict_get k d).
Qed.

Lemma dict_set_ok (k : str) (v : scalar) (d : dict) :
  dict_ok d → dict_ok (dict_set k v d).
Proof.
  unfold dict_ok. intros Hd. rewrite dict_set_keys.
  destruct (dict_get k d) eqn:Hk; [exact Hd|].
  apply dict_get_None_keys in Hk.
  apply NoDup_app. repeat split; [exact Hd| |apply NoDup_singleton].
  intros x Hx Hx'. apply list_elem_of_singleton in Hx'. now subst x.
Qed.

(** X5.  Once the text is signed, [_send_request] hands the caller's
    mapping, with timestamp and signature set and still without a repeated
    key, to [requests.get] as the query when the method is exactly "GET" and
    to [requests.post] as the JSON body when it is exactly "POST"; for any
    other method (DELETE, PUT, a lowercase "get") it sends nothing and
    returns [None]. *)
Theorem send_request_dispatch (E : environment) (self : MEXCTrader)
    (method endpoint : str) (p : ref) (w : world) (d : dict) (signature : str) :
  heap w !! p = Some d →
  _generate_signature self (dict_set (lit "timestamp") (stamp E w) d) (stamp E w)
    = Ok signature →
  let d2 := dict_set (lit "signature") (SStr signature)
              (dict_set (lit "timestamp") (stamp E w) d) in
  let url := base_url self ++ endpoint in
  let run := _send_request E self method endpoint (Some p) w in
  (dict_ok d → dict_ok d2)
  ∧ (method = lit "GET" →
       fst run = Ok (reply_result (exchange E (RequestsGet url d2 (request_headers self))))
       ∧ sent (snd run) = sent w ++ [RequestsGet url d2 (request_headers self)])
  ∧ (method = lit "POST" →
       fst run = Ok (reply_result (exchange E (RequestsPost url d2 (request_headers self))))
       ∧ sent (snd run) = sent w ++ [RequestsPost url d2 (request_headers self)])
  ∧ (method ≠ lit "GET" → method ≠ lit "POST" →
       fst run = Ok (JAtom SNone) ∧ sent (snd run) = sent w).
Proof.
  intros Hp Hsig d2 url run.
  pose proof (lookup_lt_Some _ _ _ Hp) as Hlt.
  assert (∀ w0 : world,
            w0 = with_heap (<[p := d2]> (heap w)) (with_ticks (S (ticks w)) w) →
            object p w0 = d2) as Hobj.
  { intros w0 ->. unfold object. cbn [heap with_heap with_ticks].
    now rewrite list_lookup_insert_eq by exact Hlt. }
  subst run. rewrite (send_request_ref E self method endpoint p w d Hp).
  cbv zeta. rewrite Hsig. fold d2 url.
  split; [intros Hd; now apply dict_set_ok, dict_set_ok|].
  split; [|split].
  - intros ->. rewrite attempt_GET, (Hobj _ eq_refl). split; reflexivity.
  - intros ->. rewrite attempt_POST, (Hobj _ eq_refl). split; reflexivity.
  - intros HG HP. apply str_eqb_neq in HG, HP.
    rewrite attempt_other by assumption. split; reflexivity.
Qed.

Lemma send_request_dispatch_witness :
  let E := sample_env (Some (JObj [])) in
  let w := with_heap [[(lit "symbol", SStr (lit "ETHUSDT"))]] loaded in
  let run := _send_request E sample_trader (lit "get")
               (lit "/api/v3/openOrders") (Some 0%nat) w in
  fst run = Ok (JAtom SNone) ∧ sent (snd run) = sent w.
Proof.
  intros E w run.
  destruct (generate_signature_Ok sample_trader
              (dict_set (lit "timestamp") (stamp E w)
                 [(lit "symbol", SStr (lit "ETHUSDT"))]) (stamp E w) eq_refl)
    as (key & msg & _ & _ & Hsig).
  destruct (send_request_dispatch E sample_trader (lit "get")
              (lit "/api/v3/openOrders") 0%nat w
              [(lit "symbol", SStr (lit "ETHUSDT"))] _ eq_refl Hsig)
    as (_ & _ & _ & H).
  apply H; discriminate.
Defined.

(** ** The routes, written out *)

Lemma ensure_trader_run (E : environment) (w : world) :
  ensure_trader E w =
  match trader w with
  | Some t => (Ok (Some t), w)
  | None =>
      match configured_trader E with
      | Some t => (Ok (Some t), with_trader (Some t) w)
      | None => (Ok None, w)
      end
  end.
Proof.
  unfold ensure_trader, bind, get_trader, initialize_trader, configured_trader.
  destruct (trader w) as [t|] eqn:Ht; [reflexivity|].
  destruct (MEXC_API_KEY E) as [[|k0 k]|], (MEXC_SECRET_KEY E) as [[|s0 s]|];
    cbn [configured andb]; unfold ret; rewrite ?Ht; reflexivity.
Qed.

Lemma webhook_unreadable (E : environment) (e : exn) (w : world) :
  webhook E (BodyUnreadable e) w
  = (Ok {| status := 500; payload := ErrorBody (StrOf e) |}, w).
Proof. reflexivity. Qed.

Lemma webhook_no_trader (E : environment) (body : webhook_body) (w w1 : world) :
  (∀ e, body ≠ BodyUnreadable e) →
  ensure_trader E w = (Ok None, w1) →
  webhook E body w
  = (Ok {| status := 500;
           payload := ErrorBody (Text (lit "MEXC trader not initialized")) |}, w1).
Proof.
  intros Hb Hen. unfold webhook, try_except, bind, get_json.
  destruct body as [e| |fields]; [now destruct (Hb e)|..];
    unfold ret; now rewrite Hen.
Qed.

Lemma webhook_other (E : environment) (w w1 : world) (tr : MEXCTrader) :
  ensure_trader E w = (Ok (Some tr), w1) →
  webhook E BodyOther w
  = (Ok {| status := 500; payload := ErrorBody (StrOf AttributeError) |}, w1).
Proof.
  intros Hen. unfold webhook, try_except, bind, get_json, ret. now rewrite Hen.
Qed.

Lemma test_trade_run (E : environment) (w : world) :
  test_trade E w =
  match ensure_trader E w with
  | (Ok (Some tr), w1) =>
      match perform E tr GetAccountInfo w1 with
      | (Ok account_info, w') =>
          (Ok (if truthy account_info
               then {| status := 200;
                       payload := TestSuccess msg_test_ok account_info |}
               else {| status := 500; payload := ErrorBody (Text msg_test_failed) |}),
           w')
      | (Raise e, w') =>
          (Ok {| status := 500; payload := ErrorBody (StrOf e) |}, w')
      end
  | (Ok None, w1) =>
      (Ok {| status := 500;
             payload := ErrorBody (Text (lit "Trader not initialized")) |}, w1)
  | (Raise e, w1) => (Raise e, w1)
  end.
Proof.
  unfold test_trade, bind.
  destruct (ensure_trader E w) as [[[tr|]|e] w1]; try reflexivity.
  unfold try_except, bind. cbn [perform].
  destruct (get_account_info E tr w1) as [[account_info|e] w']; [|reflexivity].
  now destruct (truthy account_info).
Qed.

Lemma status_route_run (E : environment) (w : world) :
  status_route E w =
  match ensure_trader E w with
  | (Ok (Some tr), w1) =>
      match perform E tr GetAccountInfo w1 with
      | (Ok account_info, w') =>
          (Ok {| status := 200;
                 payload := StatusRunning (negb (is_none account_info))
                              (clock_s E (ticks w'))
                              (is_some (MEXC_API_KEY E))
                              (is_some (MEXC_SECRET_KEY E)) |},
           with_ticks (S (ticks w')) w')
      | (Raise e, w') => (Raise e, w')
      end
  | (Ok None, w1) =>
      (Ok {| status := 200;
             payload := StatusError (lit "Trader not initialized") |}, w1)
  | (Raise e, w1) => (Raise e, w1)
  end.
Proof.
  unfold status_route, bind.
  destruct (ensure_trader E w) as [[[tr|]|e] w1]; reflexivity.
Qed.

Lemma spec_route_routable (action symbol quantity : scalar)
    (op : client_call) (message : str) :
  spec_route action symbol quantity = Some (op, message) → routable op.
Proof.
  unfold spec_route, routable.
  destruct (is_in action [lit "buy"; lit "long"]);
    [intros [= <- _]; right; exists symbol, quantity; auto|].
  destruct (is_in action [lit "sell"; lit "short"]);
    [intros [= <- _]; right; exists symbol, quantity; auto|].
  destruct (is_in action [lit "close_long"; lit "close_short"; lit "close"]);
    [intros [= <- _]; right; exists symbol, quantity; auto|].
  discriminate.
Qed.

(** What a request does to the world: the trader may be made on the way,
    and then at most one operation of the client runs. *)
Lemma route_summary (E : environment) (r : request) (w : world) :
  ∃ w1,
    (w1 = w
     ∨ ∃ t, trader w = None ∧ configured_trader E = Some t
            ∧ w1 = with_trader (Some t) w)
    ∧ trader (snd (route E r w)) = trader w1
    ∧ ((sent (snd (route E r w)) = sent w1
        ∧ entered (snd (route E r w)) = entered w1)
       ∨ ∃ tr op,
           trader w1 = Some tr ∧ routable op
           ∧ sent (snd (route E r w)) = sent (snd (perform E tr op w1))
           ∧ entered (snd (route E r w)) = entered (snd (perform E tr op w1))).
Proof.
  assert (∃ o w1, ensure_trader E w = (Ok o, w1) ∧ trader w1 = o
            ∧ (w1 = w ∨ ∃ t, trader w = None ∧ configured_trader E = Some t
                             ∧ w1 = with_trader (Some t) w)) as Hen.
  { rewrite ensure_trader_run. destruct (trader w) as [t|] eqn:Ht.
    - exists (Some t), w. auto.
    - destruct (configured_trader E) as [t|] eqn:Hc.
      + exists (Some t), (with_trader (Some t) w). repeat split.
        right. now exists t.
      + exists None, w. auto. }
  destruct Hen as (o & w1 & Hen & Ho & Hw1).
  assert (∀ tr op, o = Some tr → routable op →
            trader (snd (perform E tr op w1)) = trader w1) as Hperf.
  { intros tr op _ _. apply perform_summary. }
  destruct r as [|body| |]; cbn [route].
  - exists w. split; [now left|]. cbn [home ret snd].
    split; [reflexivity|left; split; reflexivity].
  - destruct body as [e| |fields].
    + exists w. split; [now left|]. rewrite webhook_unreadable. cbn [snd]. split; [reflexivity|left; split; reflexivity].
    + exists w1. split; [exact Hw1|]. destruct o as [tr|].
      * rewrite (webhook_other E w w1 tr Hen). cbn [snd]. split; [reflexivity|left; split; reflexivity].
      * rewrite (webhook_no_trader E BodyOther w w1) by (discriminate || exact Hen).
        cbn [snd]. split; [reflexivity|left; split; reflexivity].
    + exists w1. split; [exact Hw1|]. destruct o as [tr|].
      * rewrite (webhook_run E fields w w1 tr Hen).
        destruct (spec_route _ _ _) as [[op message]|] eqn:Hr; [|cbn [snd]; split; [reflexivity|left; split; reflexivity]].
        pose proof (spec_route_routable _ _ _ _ _ Hr) as Hop.
        pose proof (Hperf tr op eq_refl Hop) as Ht.
        destruct (perform E tr op w1) as [[result|e] w'] eqn:Hp; cbn [snd] in *;
          (split; [exact Ht|]); right; exists tr, op; rewrite Hp; repeat split; auto.
      * rewrite (webhook_no_trader E (BodyObject fields) w w1)
          by (discriminate || exact Hen).
        cbn [snd]. split; [reflexivity|left; split; reflexivity].
  - exists w1. split; [exact Hw1|]. rewrite status_route_run, Hen.
    destruct o as [tr|]; [|cbn [snd]; split; [reflexivity|left; split; reflexivity]].
    pose proof (Hperf tr GetAccountInfo eq_refl (or_introl eq_refl)) as Ht.
    destruct (perform E tr GetAccountInfo w1) as [[result|e] w'] eqn:Hp;
      cbn [snd] in *; (split; [exact Ht|]); right; exists tr, GetAccountInfo;
      rewrite Hp; repeat split; auto; now left.
  - exists w1. split; [exact Hw1|]. rewrite test_trade_run, Hen.
    destruct o as [tr|]; [|cbn [snd]; split; [reflexivity|left; split; reflexivity]].
    pose proof (Hperf tr GetAccountInfo eq_refl (or_introl eq_refl)) as Ht.
    destruct (perform E tr GetAccountInfo w1) as [[result|e] w'] eqn:Hp;
      cbn [snd] in *; (split; [exact Ht|]); right; exists tr, GetAccountInfo;
      rewrite Hp; repeat split; auto; now left.
Qed.

Lemma serve_world (E : environment) (r : request) (w : world) :
  snd (serve E r w) = snd (route E r w).
Proof. unfold serve. now destruct (route E r w) as [[resp|e] w']. Qed.

(** ** The process over any sequence of requests *)

Lemma configured_trader_Some (E : environment) (t : MEXCTrader) :
  configured_trader E = Some t →
  ∃ k s, MEXC_API_KEY E = Some k ∧ MEXC_SECRET_KEY E = Some s
         ∧ k ≠ [] ∧ s ≠ [] ∧ t = MEXCTrader_init k s.
Proof.
  unfold configured_trader.
  destruct (MEXC_API_KEY E) as [[|k0 k]|], (MEXC_SECRET_KEY E) as [[|s0 s]|];
    try discriminate.
  intros [= <-]. exists (k0 :: k), (s0 :: s). repeat split; discriminate.
Qed.

Lemma op_call_process (E : environment) (k s : str) (op : client_call)
    (ts sig : scalar) (c : http_call) :
  MEXC_API_KEY E = Some k →
  routable op →
  op_call (MEXCTrader_init k s) op
    (op_params op ++ [(lit "timestamp", ts); (lit "signature", sig)]) = Some c →
  process_call E c.
Proof.
  intros Hk Hop Hc. exists k. split; [exact Hk|].
  destruct Hop as [->|(symbol & quantity & [->|[->| ->]])];
    cbn [op_call] in Hc; try discriminate; injection Hc as <-.
  - repeat split.
  - repeat split. now left.
  - repeat split. now right.
Qed.

(** One request keeps the trader as built from the environment and adds
    at most one call, of one of the two kinds. *)
Lemma serve_keeps (E : environment) (r : request) (w : world) :
  trader_from_env E w → Forall (process_call E) (sent w) →
  trader_from_env E (snd (serve E r w))
  ∧ Forall (process_call E) (sent (snd (serve E r w))).
Proof.
  intros Ht Hs. rewrite serve_world.
  destruct (route_summary E r w) as (w1 & Hw1 & Htr & Hrun).
  assert (trader_from_env E w1 ∧ sent w1 = sent w) as [Ht1 Hs1].
  { destruct Hw1 as [->|(t & _ & Hc & ->)]; [now split|].
    split; [|reflexivity]. right. now rewrite Hc. }
  split.
  - unfold trader_from_env. rewrite Htr. exact Ht1.
  - destruct Hrun as [[-> _]|(tr & op & Htr1 & Hop & -> & _)];
      [now rewrite Hs1|].
    destruct (perform_summary E tr op w1)
      as (_ & _ & _ & [-> | (sig & c & Hc & -> & _)]); [now rewrite Hs1|].
    rewrite Hs1. apply Forall_app. split; [exact Hs|].
    constructor; [|constructor].
    destruct Ht1 as [Ht1|Ht1]; [congruence|].
    rewrite Htr1 in Ht1. symmetry in Ht1.
    destruct (configured_trader_Some E tr Ht1) as (k & s & Hk & _ & _ & _ & ->).
    exact (op_call_process E k s op _ _ c Hk Hop Hc).
Qed.

Lemma serve_all_keeps (E : environment) (rs : list request) (w : world) :
  trader_from_env E w → Forall (process_call E) (sent w) →
  trader_from_env E (snd (serve_all E rs w))
  ∧ Forall (process_call E) (sent (snd (serve_all E rs w))).
Proof.
  revert w. induction rs as [|r rs IH]; intros w Ht Hs; [now split|].
  cbn [serve_all].
  destruct (serve_keeps E r w Ht Hs) as [Ht' Hs'].
  destruct (serve E r w) as [resp w']. cbn [snd] in Ht', Hs'.
  specialize (IH w' Ht' Hs').
  destruct (serve_all E rs w') as [resps w'']. exact IH.
Qed.

Lemma started_from_env (E : environment) :
  trader_from_env E (started E) ∧ sent (started E) = [].
Proof.
  unfold started, initialize_trader, trader_from_env, configured_trader.
  destruct (MEXC_API_KEY E) as [[|k0 k]|], (MEXC_SECRET_KEY E) as [[|s0 s]|];
    cbn; auto.
Qed.

(** ** Calls made and calls on the wire *)

Lemma perform_traces (E : environment) (self : MEXCTrader) (op : client_call)
    (w : world) :
  ∃ cs, sent (snd (perform E self op w)) = sent w ++ cs
        ∧ wire (snd (perform E self op w)) = wire w ++ flat_map (delivered E) cs
        ∧ (cs = [] ∨ ∃ c, cs = [c]).
Proof.
  rewrite perform_run.
  destruct (_generate_signature self _ (stamp E w)) as [signature|e].
  - cbv zeta. destruct (op_call self op _) as [c|].
    + exists [c]. cbn [snd sent wire with_sent with_wire after_op flat_map].
      rewrite app_nil_r. repeat split. right. now exists c.
    + exists []. cbn [snd sent wire after_op flat_map].
      rewrite !app_nil_r. repeat split. now left.
  - exists []. cbn [snd sent wire after_op flat_map].
    rewrite !app_nil_r. repeat split. now left.
Qed.

Lemma route_traces (E : environment) (r : request) (w : world) :
  ∃ cs, sent (snd (route E r w)) = sent w ++ cs
        ∧ wire (snd (route E r w)) = wire w ++ flat_map (delivered E) cs
        ∧ (cs = [] ∨ ∃ c, cs = [c]).
Proof.
  assert (∃ cs, sent w = sent w ++ cs
                ∧ wire w = wire w ++ flat_map (delivered E) cs
                ∧ (cs = [] ∨ ∃ c, cs = [c])) as Hnone.
  { exists []. cbn [flat_map]. rewrite !app_nil_r. repeat split. now left. }
  assert (∃ o w1, ensure_trader E w = (Ok o, w1)
                  ∧ sent w1 = sent w ∧ wire w1 = wire w) as (o & w1 & Hen & Hs1 & Hw1).
  { rewrite ensure_trader_run.
    destruct (trader w), (configured_trader E); eexists _, _; repeat split. }
  assert (∀ tr op,
            ∃ cs, sent (snd (perform E tr op w1)) = sent w ++ cs
                  ∧ wire (snd (perform E tr op w1))
                    = wire w ++ flat_map (delivered E) cs
                  ∧ (cs = [] ∨ ∃ c, cs = [c])) as Hperf.
  { intros tr op. rewrite <- Hs1, <- Hw1. apply perform_traces. }
  destruct r as [|body| |]; cbn [route].
  - exact Hnone.
  - destruct body as [e| |fields].
    + rewrite webhook_unreadable. exact Hnone.
    + destruct o as [tr|].
      * rewrite (webhook_other E w w1 tr Hen). cbn [snd]. now rewrite Hs1, Hw1.
      * rewrite (webhook_no_trader E _ w w1) by (discriminate || exact Hen).
        cbn [snd]. now rewrite Hs1, Hw1.
    + destruct o as [tr|].
      * rewrite (webhook_run E fields w w1 tr Hen).
        destruct (spec_route _ _ _) as [[op message]|];
          [|cbn [snd]; now rewrite Hs1, Hw1].
        specialize (Hperf tr op).
        now destruct (perform E tr op w1) as [[result|e] w0].
      * rewrite (webhook_no_trader E _ w w1) by (discriminate || exact Hen).
        cbn [snd]. now rewrite Hs1, Hw1.
  - rewrite status_route_run, Hen.
    destruct o as [tr|]; [|cbn [snd]; now rewrite Hs1, Hw1].
    specialize (Hperf tr GetAccountInfo).
    now destruct (perform E tr GetAccountInfo w1) as [[result|e] w0].
  - rewrite test_trade_run, Hen.
    destruct o as [tr|]; [|cbn [snd]; now rewrite Hs1, Hw1].
    specialize (Hperf tr GetAccountInfo).
    now destruct (perform E tr GetAccountInfo w1) as [[result|e] w0].
Qed.

Lemma serve_all_traces (E : environment) (rs : list request) (w : world) :
  ∃ cs, sent (snd (serve_all E rs w)) = sent w ++ cs
        ∧ wire (snd (serve_all E rs w)) = wire w ++ flat_map (delivered E) cs.
Proof.
  revert w. induction rs as [|r rs IH]; intros w.
  - exists []. cbn [serve_all snd flat_map]. now rewrite !app_nil_r.
  - cbn [serve_all].
    destruct (route_traces E r w) as (cs1 & Hs1 & Hw1 & _).
    rewrite <- serve_world in Hs1, Hw1.
    destruct (serve E r w) as [resp w']. cbn [snd] in Hs1, Hw1.
    destruct (IH w') as (cs2 & Hs2 & Hw2).
    destruct (serve_all E rs w') as [resps w'']. cbn [snd] in *.
    exists (cs1 ++ cs2).
    now rewrite Hs2, Hw2, Hs1, Hw1, flat_map_app, !app_assoc.
Qed.

Lemma Forall_delivered (E : environment) (P : http_call → Prop)
    (cs : list http_call) :
  Forall P cs → Forall P (flat_map (delivered E) cs).
Proof.
  induction 1 as [|c cs Hc _ IH]; cbn [flat_map]; [constructor|].
  apply Forall_app. split; [|exact IH].
  unfold delivered. destruct (exchange E c); repeat constructor; exact Hc.
Qed.

Lemma serve_all_wire_calls (E : environment) (rs : list request) (w : world) :
  sent w = [] → wire w = [] →
  Forall (process_call E) (sent (snd (serve_all E rs w))) →
  Forall (process_call E) (wire (snd (serve_all E rs w))).
Proof.
  intros Hs Hw. destruct (serve_all_traces E rs w) as (cs & -> & ->).
  rewrite Hs, Hw. cbn [app]. apply Forall_delivered.
Qed.

Lemma started_wire (E : environment) : wire (started E) = [].
Proof.
  unfold started, initialize_trader.
  destruct (MEXC_API_KEY E) as [[|k0 k]|], (MEXC_SECRET_KEY E) as [[|s0 s]|];
    reflexivity.
Qed.

(** X6.  Whatever requests arrive, and whether or not the process ran
    [initialize_trader] at start, the trader is unset or the one built from
    the two credentials (both set and not empty, base URL
    https://api.mexc.com), and every call that has been made, and so every
    call that has gone out on the wire, is a POST of a MARKET order with
    side BUY or SELL to /api/v3/order or a GET of /api/v3/account on that
    host, with the configured API key in the header and timestamp and
    signature as its last parameters; no other endpoint and no other method
    is ever used. *)
Theorem process_calls (E : environment) (rs : list request) :
  (trader_from_env E (snd (serve_all E rs loaded))
   ∧ Forall (process_call E) (sent (snd (serve_all E rs loaded)))
   ∧ Forall (process_call E) (wire (snd (serve_all E rs loaded))))
  ∧ (trader_from_env E (snd (serve_all E rs (started E)))
     ∧ Forall (process_call E) (sent (snd (serve_all E rs (started E))))
     ∧ Forall (process_call E) (wire (snd (serve_all E rs (started E))))).
Proof.
  split.
  - destruct (serve_all_keeps E rs loaded) as [Ht Hs]; [now left|constructor|].
    split; [exact Ht|]. split; [exact Hs|].
    now apply serve_all_wire_calls.
  - destruct (started_from_env E) as [Ht0 Hs0].
    destruct (serve_all_keeps E rs (started E)) as [Ht Hs];
      [exact Ht0|rewrite Hs0; constructor|].
    split; [exact Ht|]. split; [exact Hs|].
    apply serve_all_wire_calls; [exact Hs0|apply started_wire|exact Hs].
Qed.

Lemma serve_trader_kept (E : environment) (r : request) (w : world) (t : MEXCTrader) :
  trader w = Some t → trader (snd (serve E r w)) = Some t.
Proof.
  intros Ht. rewrite serve_world.
  destruct (route_summary E r w) as (w1 & Hw1 & -> & _).
  destruct Hw1 as [->|(t' & Hn & _)]; congruence.
Qed.

Lemma serve_all_trader_kept (E : environment) (rs : list request)
    (w : world) (t : MEXCTrader) :
  trader w = Some t → trader (snd (serve_all E rs w)) = Some t.
Proof.
  revert w. induction rs as [|r rs IH]; intros w Ht; [exact Ht|].
  cbn [serve_all].
  pose proof (serve_trader_kept E r w t Ht) as Ht'.
  destruct (serve E r w) as [resp w']. cbn [snd] in Ht'.
  specialize (IH w' Ht').
  destruct (serve_all E rs w') as [resps w'']. exact IH.
Qed.

Lemma initialize_trader_world (E : environment) (w : world) :
  snd (initialize_trader E w)
  = match configured_trader E with
    | Some t => with_trader (Some t) w
    | None => w
    end.
Proof.
  unfold initialize_trader, configured_trader.
  destruct (MEXC_API_KEY E) as [[|k0 k]|], (MEXC_SECRET_KEY E) as [[|s0 s]|];
    reflexivity.
Qed.

(** A step of a prologue keeps a trader that came from the environment. *)
Lemma prologue_step_keeps (E : environment) (p : prologue) (w : world) :
  trader_from_env E w →
  trader_from_env E (snd (prologue_step E p w))
  ∧ ∀ t, trader w = Some t → trader (snd (prologue_step E p w)) = Some t.
Proof.
  intros Ht. destruct p; cbn [prologue_step get_trader].
  - destruct (trader w) eqn:Hw; cbn [snd]; (split; [exact Ht|]);
      intros t Heq; congruence.
  - cbn [snd]. rewrite initialize_trader_world.
    destruct (configured_trader E) as [t0|] eqn:Hc; [|auto].
    cbn [trader with_trader]. split; [right; now rewrite Hc|].
    intros t Hw. destruct Ht as [Ht|Ht]; congruence.
  - cbn [snd]. auto.
Qed.

Lemma interleave_keeps (E : environment) (schedule : list nat)
    (ps : list prologue) (w : world) :
  trader_from_env E w →
  trader_from_env E (snd (interleave E schedule ps w))
  ∧ ∀ t, trader w = Some t → trader (snd (interleave E schedule ps w)) = Some t.
Proof.
  revert ps w. induction schedule as [|i schedule IH]; intros ps w Ht;
    cbn [interleave]; [cbn [snd]; auto|].
  destruct (ps !! i) as [p|]; [|now apply IH].
  destruct (prologue_step_keeps E p w Ht) as [Ht1 Hk1].
  destruct (prologue_step E p w) as [p' w']. cbn [snd] in Ht1, Hk1.
  destruct (IH (<[i := p']> ps) w' Ht1) as [Ht2 Hk2].
  split; [exact Ht2|]. intros t Hw. apply Hk2, Hk1, Hw.
Qed.

(** X7.  The value of the global trader, once set, is kept.  Served one
    after another, no request replaces or removes a trader that exists, and
    the prologue of a handler running alone is [ensure_trader].  On several
    threads nothing guards [if not trader: initialize_trader()]: two
    handlers can both pass the check before either initializes, and then
    each builds a trader, so the trader can be built more than once; but
    every build uses the same two credentials, so under every interleaving
    of the handlers' checks and initializations a trader that came from the
    environment is never removed and never changes its value.  The
    operations of the client never assign the global. *)
Theorem trader_value_kept (E : environment) :
  (∀ rs w t, trader w = Some t → trader (snd (serve_all E rs w)) = Some t)
  ∧ (∀ w, interleave E [0; 0]%nat [AtCheck] w = ([Past], snd (ensure_trader E w)))
  ∧ (∀ w, trader w = None →
       is_some (configured_trader E) = true →
       interleave E [0; 1]%nat [AtCheck; AtCheck] w = ([AtInit; AtInit], w)
       ∧ constructions E [0; 1; 0; 1]%nat [AtCheck; AtCheck] w = 2%nat)
  ∧ (∀ schedule ps w, trader_from_env E w →
       trader_from_env E (snd (interleave E schedule ps w))
       ∧ ∀ t, trader w = Some t →
              trader (snd (interleave E schedule ps w)) = Some t)
  ∧ (∀ tr op w, trader (snd (perform E tr op w)) = trader w).
Proof.
  split; [intros rs w t; apply serve_all_trader_kept|].
  split.
  { intros w. rewrite ensure_trader_run.
    cbn [interleave lookup list_lookup insert list_insert prologue_step
         get_trader].
    destruct (trader w) as [t|] eqn:Ht;
      cbn [interleave lookup list_lookup insert list_insert prologue_step snd];
      [reflexivity|].
    rewrite initialize_trader_world.
    now destruct (configured_trader E). }
  split.
  { intros w Hn Hc. split.
    - repeat (cbn [interleave lookup list_lookup insert list_insert
                   prologue_step get_trader]; rewrite ?Hn).
      reflexivity.
    - unfold configured_trader in Hc.
      repeat (cbn [constructions lookup list_lookup insert list_insert
                   prologue_step get_trader]; rewrite ?Hn).
      destruct (MEXC_API_KEY E) as [[|k0 k]|], (MEXC_SECRET_KEY E) as [[|s0 s]|];
        try discriminate Hc.
      reflexivity. }
  split; [intros schedule ps w; apply interleave_keeps|].
  intros tr op w. apply perform_summary.
Qed.

Lemma trader_value_kept_witness :
  let E := sample_env None in
  interleave E [0; 1]%nat [AtCheck; AtCheck] loaded = ([AtInit; AtInit], loaded)
  ∧ constructions E [0; 1; 0; 1]%nat [AtCheck; AtCheck] loaded = 2%nat
  ∧ trader (snd (interleave E [0; 1; 0; 1]%nat [AtCheck; AtCheck] loaded))
    = Some sample_trader
  ∧ trader (snd (serve_all E
                   [PostTest; PostWebhook (BodyObject [(lit "action", SStr (lit "buy"))])]
                   (started E)))
    = Some sample_trader.
Proof.
  intros E.
  destruct (trader_value_kept E) as (Hseq & _ & Htwice & Hthreads & _).
  destruct (Htwice loaded eq_refl eq_refl) as [Hboth Hcount].
  split; [exact Hboth|]. split; [exact Hcount|]. split.
  - change (interleave E [0; 1; 0; 1]%nat [AtCheck; AtCheck] loaded)
      with (interleave E [1]%nat [Past; AtInit] (started E)).
    apply (Hthreads [1]%nat [Past; AtInit] (started E)); [now right|reflexivity].
  - apply Hseq. reflexivity.
Defined.

(** X8.  A request makes at most one outbound call, puts at most that
    call on the wire, and enters at most one operation of the client; the
    traces of calls are never shortened. *)
Theorem serve_at_most_one_call (E : environment) (r : request) (w : world) :
  let w' := snd (serve E r w) in
  (sent w' = sent w ∨ ∃ c, sent w' = sent w ++ [c])
  ∧ (entered w' = entered w ∨ ∃ op, entered w' = entered w ++ [op])
  ∧ (wire w' = wire w
     ∨ ∃ c, sent w' = sent w ++ [c] ∧ wire w' = wire w ++ [c]).
Proof.
  cbv zeta. rewrite serve_world.
  destruct (route_summary E r w) as (w1 & Hw1 & _ & Hrun).
  assert (sent w1 = sent w ∧ entered w1 = entered w) as [Hs1 He1].
  { destruct Hw1 as [->|(t & _ & _ & ->)]; now split. }
  split; [|split].
  - destruct Hrun as [[-> _]|(tr & op & _ & _ & -> & _)]; [now left|].
    destruct (perform_summary E tr op w1) as (_ & _ & _ & Hsent).
    destruct Hsent as [-> | (sig & c & _ & -> & _)]; rewrite Hs1;
      [now left|right; now exists c].
  - destruct Hrun as [[_ ->]|(tr & op & _ & _ & _ & ->)];
      [rewrite He1; now left|].
    destruct (perform_summary E tr op w1) as (_ & -> & _).
    rewrite He1. right. now exists op.
  - destruct (route_traces E r w) as (cs & Hs & Hw & [->|[c ->]]).
    + left. cbn [flat_map] in Hw. now rewrite app_nil_r in Hw.
    + cbn [flat_map] in Hw. rewrite app_nil_r in Hw. unfold delivered in Hw.
      destruct (exchange E c); [right; now exists c|right; now exists c|].
      left. now rewrite app_nil_r in Hw.
Qed.



(** ** More on the webhook *)

Lemma ensure_trader_Ok (E : environment) (w : world) :
  ∃ o w1, ensure_trader E w = (Ok o, w1).
Proof.
  rewrite ensure_trader_run.
  destruct (trader w), (configured_trader E); eexists _, _; reflexivity.
Qed.

(** The handler reads an object payload through three lookups only. *)
Lemma webhook_fields_ext (E : environment) (f1 f2 : dict) (w : world) :
  action_of f1 = action_of f2 →
  symbol_of f1 = symbol_of f2 →
  quantity_of f1 = quantity_of f2 →
  webhook E (BodyObject f1) w = webhook E (BodyObject f2) w.
Proof.
  intros Ha Hs Hq. destruct (ensure_trader_Ok E w) as ([tr|] & w1 & Hen).
  - rewrite (webhook_run E f1 w w1 tr Hen), (webhook_run E f2 w w1 tr Hen).
    now rewrite Ha, Hs, Hq.
  - now rewrite !(webhook_no_trader E _ w w1) by (discriminate || exact Hen).
Qed.

Lemma dict_get_app (k : str) (d d' : dict) :
  dict_get k (d ++ d')
  = match dict_get k d with
    | Some v => Some v
    | None => dict_get k d'
    end.
Proof.
  induction d as [|[k' v] d IH]; cbn [dict_get app]; [reflexivity|].
  now destruct (str_eqb k' k).
Qed.

(** X9.  A payload without [symbol] and without [quantity] is handled
    exactly like the same payload with symbol "BTCUSDT" and quantity 10:
    same response, same world. *)
Theorem webhook_defaults (E : environment) (fields : dict) (w : world) :
  dict_get (lit "symbol") fields = None →
  dict_get (lit "quantity") fields = None →
  webhook E (BodyObject fields) w
  = webhook E (BodyObject (fields ++ [(lit "symbol", SStr (lit "BTCUSDT"));
                                      (lit "quantity", SInt 10)])) w.
Proof.
  intros Hs Hq. apply webhook_fields_ext;
    unfold action_of, symbol_of, quantity_of, dict_get_default;
    rewrite dict_get_app.
  - now destruct (dict_get (lit "action") fields).
  - now rewrite Hs.
  - now rewrite Hq.
Qed.

Lemma webhook_defaults_witness :
  webhook (sample_env (Some (JObj []))) (BodyObject [(lit "action", SStr (lit "buy"))])
    loaded
  = webhook (sample_env (Some (JObj [])))
      (BodyObject ([(lit "action", SStr (lit "buy"))]
                   ++ [(lit "symbol", SStr (lit "BTCUSDT")); (lit "quantity", SInt 10)]))
      loaded.
Proof. apply webhook_defaults; reflexivity. Defined.

(** X10.  With the trader initialized, a payload that is JSON but not an
    object (a list, a string, null) is answered with 500 and the text of
    the AttributeError; no operation of the client is entered and nothing
    is sent, though the trader may have been made on the way.  A body that
    cannot be read at all is answered before the trader is looked at: the
    world is left as it was. *)
Theorem webhook_not_an_object (E : environment) (w : world) :
  trader_ready E w = true →
  (∃ w', webhook E BodyOther w
         = (Ok {| status := 500; payload := ErrorBody (StrOf AttributeError) |}, w')
         ∧ sent w' = sent w ∧ entered w' = entered w
         ∧ is_some (trader w') = true)
  ∧ (∀ e, webhook E (BodyUnreadable e) w
          = (Ok {| status := 500; payload := ErrorBody (StrOf e) |}, w)).
Proof.
  intros Hready. split; [|intros e; apply webhook_unreadable].
  destruct (ensure_trader_ready E w Hready)
    as (tr & w1 & Hen & Ht & _ & Hs & _ & He).
  exists w1. rewrite (webhook_other E w w1 tr Hen).
  repeat split; try assumption. now rewrite Ht.
Qed.

Lemma webhook_not_an_object_witness :
  ∃ w', webhook (sample_env None) BodyOther loaded
        = (Ok {| status := 500; payload := ErrorBody (StrOf AttributeError) |}, w')
        ∧ sent w' = sent loaded ∧ entered w' = entered loaded
        ∧ is_some (trader w') = true.
Proof.
  destruct (webhook_not_an_object (sample_env None) loaded eq_refl) as [H _].
  exact H.
Defined.

(** X11.  A close_long, close_short or close webhook is never answered
    with success: [cancel_all_orders] sends nothing and returns [None] or
    raises, so the answer is 500, "Trade failed" or the text of the
    UnicodeEncodeError, and no call goes out. *)
Theorem webhook_close_never_succeeds (E : environment) (fields : dict) (w : world) :
  trader_ready E w = true →
  is_in (action_of fields) [lit "close_long"; lit "close_short"; lit "close"] = true →
  ∃ w',
    sent w' = sent w
    ∧ (webhook E (BodyObject fields) w
       = (Ok {| status := 500; payload := ErrorBody (Text (lit "Trade failed")) |}, w')
       ∨ webhook E (BodyObject fields) w
         = (Ok {| status := 500; payload := ErrorBody (StrOf UnicodeEncodeError) |}, w')).
Proof.
  intros Hready Hclose.
  destruct (ensure_trader_ready E w Hready)
    as (tr & w1 & Hen & _ & _ & Hs & _ & _).
  rewrite (webhook_run E fields w w1 tr Hen).
  assert (spec_route (action_of fields) (symbol_of fields) (quantity_of fields)
          = Some (CancelAllOrders (symbol_of fields), msg_close (symbol_of fields)))
    as ->.
  { unfold spec_route.
    destruct (action_of fields) as [| | | |a]; try discriminate.
    unfold is_in in *. cbn [existsb eq_str] in *.
    destruct (str_eqb a (lit "buy")) eqn:H1;
      [apply str_eqb_eq in H1; subst a; discriminate|].
    destruct (str_eqb a (lit "long")) eqn:H2;
      [apply str_eqb_eq in H2; subst a; discriminate|].
    destruct (str_eqb a (lit "sell")) eqn:H3;
      [apply str_eqb_eq in H3; subst a; discriminate|].
    destruct (str_eqb a (lit "short")) eqn:H4;
      [apply str_eqb_eq in H4; subst a; discriminate|].
    cbn [orb]. now rewrite Hclose. }
  rewrite perform_run.
  destruct (_generate_signature tr _ (stamp E w1)) as [sig|e] eqn:Hsig.
  - cbn [op_call]. eexists. split; [|left; reflexivity]. exact Hs.
  - apply generate_signature_exn in Hsig. subst e.
    eexists. split; [|right; reflexivity]. exact Hs.
Qed.

Lemma webhook_close_never_succeeds_witness :
  ∃ w',
    sent w' = sent loaded
    ∧ (webhook (sample_env (Some (JObj [(lit "code", JAtom (SInt 200))])))
         (BodyObject [(lit "action", SStr (lit "close"))]) loaded
       = (Ok {| status := 500; payload := ErrorBody (Text (lit "Trade failed")) |}, w')
       ∨ webhook (sample_env (Some (JObj [(lit "code", JAtom (SInt 200))])))
           (BodyObject [(lit "action", SStr (lit "close"))]) loaded
         = (Ok {| status := 500; payload := ErrorBody (StrOf UnicodeEncodeError) |}, w')).
Proof.
  apply (webhook_close_never_succeeds
           (sample_env (Some (JObj [(lit "code", JAtom (SInt 200))])))
           [(lit "action", SStr (lit "close"))] loaded); reflexivity.
Defined.

(** X12.  An order from end to end: for a buy, long, sell or short with
    the trader initialized and text that can be encoded, exactly one call is
    handed to [requests.post], for /api/v3/order, with the body symbol,
    side, type MARKET, quoteOrderQty (the text of the quantity), timestamp,
    signature, in this order; the answer is 200 with the message and the
    body the exchange returned when that body is truthy, and 500 "Trade
    failed" otherwise.  The POST goes out on the wire unless the library
    refuses the call before sending (a NaN symbol in the body, an API key
    with CR, LF or leading whitespace); refused, nothing goes out and the
    answer is the 500 "Trade failed". *)
Theorem webhook_order (E : environment) (fields : dict) (w w1 : world)
    (tr : MEXCTrader) (symbol : scalar) (side : str) (quantity : scalar)
    (order_type message : str) :
  ensure_trader E w = (Ok (Some tr), w1) →
  spec_route (action_of fields) (symbol_of fields) (quantity_of fields)
    = Some (PlaceOrder symbol side quantity order_type, message) →
  encodable (secret_key tr) = true →
  encodable (py_str symbol) = true →
  encodable (py_str quantity) = true →
  (symbol = symbol_of fields ∧ quantity = quantity_of fields
   ∧ order_type = lit "MARKET" ∧ (side = lit "BUY" ∨ side = lit "SELL"))
  ∧ ∃ signature w',
      let c := RequestsPost (base_url tr ++ lit "/api/v3/order")
                 [(lit "symbol", symbol); (lit "side", SStr side);
                  (lit "type", SStr order_type);
                  (lit "quoteOrderQty", SStr (py_str quantity));
                  (lit "timestamp", stamp E w1);
                  (lit "signature", SStr signature)]
                 (request_headers tr) in
      let failed :=
        {| status := 500; payload := ErrorBody (Text (lit "Trade failed")) |} in
      webhook E (BodyObject fields) w
      = (Ok (if truthy (reply_result (exchange E c))
             then {| status := 200;
                     payload := TradeSuccess message (reply_result (exchange E c)) |}
             else failed),
         w')
      ∧ sent w' = sent w1 ++ [c]
      ∧ (exchange E c = Refused →
           wire w' = wire w1
           ∧ fst (webhook E (BodyObject fields) w) = Ok failed)
      ∧ (exchange E c ≠ Refused → wire w' = wire w1 ++ [c]).
Proof.
  intros Hen Hr Hs Hsym Hq.
  assert (symbol = symbol_of fields ∧ quantity = quantity_of fields
          ∧ order_type = lit "MARKET" ∧ (side = lit "BUY" ∨ side = lit "SELL"))
    as Hshape.
  { unfold spec_route in Hr.
    destruct (is_in (action_of fields) [lit "buy"; lit "long"]);
      [injection Hr as <- <- <- <- _; auto|].
    destruct (is_in (action_of fields) [lit "sell"; lit "short"]);
      [injection Hr as <- <- <- <- _; auto|].
    destruct (is_in (action_of fields) [lit "close_long"; lit "close_short"; lit "close"]);
      discriminate. }
  split; [exact Hshape|].
  destruct Hshape as (_ & _ & Ht & Hside).
  assert (op_encodable (PlaceOrder symbol side quantity order_type) = true) as Hop.
  { cbn [op_encodable]. rewrite Hsym, Hq, Ht.
    destruct Hside as [-> | ->]; reflexivity. }
  destruct (generate_signature_Ok _ _ _
              (place_order_signable E tr symbol side quantity order_type w1 Hs Hop))
    as (key & msg & _ & _ & Hsig).
  rewrite (webhook_run E fields w w1 tr Hen), Hr, perform_run.
  cbn [op_params]. rewrite Hsig. cbv zeta. cbn [op_call].
  eexists _, _. split; [reflexivity|]. split; [reflexivity|].
  match goal with |- context [delivered E ?c0] => set (c := c0) end.
  cbn [fst wire with_wire with_sent after_op]. split.
  - intros H. change (exchange E c = Refused) in H.
    rewrite (delivered_refused _ _ H), H, app_nil_r. split; reflexivity.
  - intros H. change (exchange E c ≠ Refused) in H.
    now rewrite (delivered_sent _ _ H).
Qed.

Lemma webhook_order_witness :
  let E := sample_env (Some (JObj [(lit "orderId", JAtom (SStr (lit "1")))])) in
  let fields := [(lit "action", SStr (lit "sell")); (lit "quantity", SFloat (lit "12.5"))] in
  ∃ signature w',
    let c := RequestsPost (base_url sample_trader ++ lit "/api/v3/order")
               [(lit "symbol", SStr (lit "BTCUSDT")); (lit "side", SStr (lit "SELL"));
                (lit "type", SStr (lit "MARKET"));
                (lit "quoteOrderQty", SStr (lit "12.5"));
                (lit "timestamp", stamp E (with_trader (Some sample_trader) loaded));
                (lit "signature", SStr signature)]
               (request_headers sample_trader) in
    webhook E (BodyObject fields) loaded
    = (Ok {| status := 200;
             payload := TradeSuccess
                          (msg_sell (SStr (lit "BTCUSDT")) (SFloat (lit "12.5")))
                          (JObj [(lit "orderId", JAtom (SStr (lit "1")))]) |},
       w')
    ∧ sent w' = [c]
    ∧ wire w' = [c].
Proof.
  intros E fields.
  destruct (webhook_order E fields loaded (with_trader (Some sample_trader) loaded)
              sample_trader (SStr (lit "BTCUSDT")) (lit "SELL") (SFloat (lit "12.5"))
              (lit "MARKET") (msg_sell (SStr (lit "BTCUSDT")) (SFloat (lit "12.5")))
              eq_refl eq_refl eq_refl eq_refl eq_refl)
    as [_ (signature & w' & Hrun & Hsent & _ & Hwire)].
  exists signature, w'. cbv zeta.
  split; [exact Hrun|]. split; [exact Hsent|]. apply Hwire. discriminate.
Defined.

(** ** The /test and /status routes *)

Lemma account_info_run (E : environment) (tr : MEXCTrader) (w : world) :
  perform E tr GetAccountInfo w =
  match _generate_signature tr [(lit "timestamp", stamp E w)] (stamp E w) with
  | Raise e =>
      (Raise e, after_op GetAccountInfo [(lit "timestamp", stamp E w)] w)
  | Ok signature =>
      let d := [(lit "timestamp", stamp E w); (lit "signature", SStr signature)] in
      let c := RequestsGet (base_url tr ++ lit "/api/v3/account") d
                 (request_headers tr) in
      (Ok (reply_result (exchange E c)),
       with_wire (wire w ++ delivered E c)
         (with_sent (sent w ++ [c]) (after_op GetAccountInfo d w)))
  end.
Proof. rewrite perform_run. reflexivity. Qed.

(** X13.  POST /test never raises.  With the trader initialized it asks
    for the account once: when signing raises, the answer is 500 with the
    text of the exception and no call is made; otherwise exactly one GET of
    /api/v3/account is handed to [requests.get], and the answer is 200 with
    the account information when what came back is truthy, and 500 with
    the failure message when it is not.  The request goes out on the wire
    unless the library refuses the call before sending (an API key with CR,
    LF or leading whitespace); refused, nothing goes out and the answer is
    the 500 with the failure message. *)
Theorem test_trade_outcome (E : environment) (w w1 : world) (tr : MEXCTrader) :
  ensure_trader E w = (Ok (Some tr), w1) →
  ∃ resp w',
    test_trade E w = (Ok resp, w')
    ∧ match _generate_signature tr [(lit "timestamp", stamp E w1)] (stamp E w1) with
      | Raise _ =>
          resp = {| status := 500; payload := ErrorBody (StrOf UnicodeEncodeError) |}
          ∧ sent w' = sent w1
          ∧ wire w' = wire w1
      | Ok signature =>
          let c := RequestsGet (base_url tr ++ lit "/api/v3/account")
                     [(lit "timestamp", stamp E w1);
                      (lit "signature", SStr signature)]
                     (request_headers tr) in
          sent w' = sent w1 ++ [c]
          ∧ resp = (if truthy (reply_result (exchange E c))
                    then {| status := 200;
                            payload := TestSuccess msg_test_ok
                                         (reply_result (exchange E c)) |}
                    else {| status := 500;
                            payload := ErrorBody (Text msg_test_failed) |})
          ∧ (exchange E c = Refused →
               wire w' = wire w1
               ∧ resp = {| status := 500;
                           payload := ErrorBody (Text msg_test_failed) |})
          ∧ (exchange E c ≠ Refused → wire w' = wire w1 ++ [c])
      end.
Proof.
  intros Hen. rewrite test_trade_run, Hen, account_info_run.
  destruct (_generate_signature tr _ (stamp E w1)) as [signature|e] eqn:Hsig.
  - cbv zeta. eexists _, _. split; [reflexivity|].
    split; [reflexivity|]. split; [reflexivity|].
    cbn [wire with_wire with_sent after_op]. split.
    + intros H. rewrite (delivered_refused _ _ H), H, app_nil_r.
      split; reflexivity.
    + intros H. now rewrite (delivered_sent _ _ H).
  - apply generate_signature_exn in Hsig. subst e.
    eexists _, _. split; [reflexivity|]. repeat split.
Qed.

Lemma test_trade_outcome_witness :
  ∃ resp w',
    test_trade refusing_env loaded = (Ok resp, w')
    ∧ length (sent w') = 1%nat
    ∧ wire w' = []
    ∧ resp = {| status := 500; payload := ErrorBody (Text msg_test_failed) |}.
Proof.
  destruct (test_trade_outcome refusing_env loaded
              (with_trader (Some (MEXCTrader_init (lit "key" ++ [13]) (lit "secret")))
                 loaded)
              (MEXCTrader_init (lit "key" ++ [13]) (lit "secret")) eq_refl)
    as (resp & w' & Hrun & H).
  exists resp, w'. split; [exact Hrun|].
  destruct (generate_signature_Ok (MEXCTrader_init (lit "key" ++ [13]) (lit "secret"))
              [(lit "timestamp", stamp refusing_env loaded)]
              (stamp refusing_env loaded) eq_refl)
    as (key & msg & _ & _ & Hsig).
  change (stamp refusing_env (with_trader _ loaded))
    with (stamp refusing_env loaded) in H.
  rewrite Hsig in H. cbv zeta in H.
  destruct H as (Hsent & _ & Href & _).
  destruct (Href eq_refl) as [Hwire Hresp].
  split; [now rewrite Hsent|]. split; [exact Hwire|exact Hresp].
Defined.

(** X14.  GET /status has no [try]: with the trader initialized, when
    signing raises the exception leaves the handler (the framework answers
    500) and no call is made; otherwise exactly one GET of /api/v3/account
    is handed to [requests.get] and the answer is 200 "running", where
    [mexc_connected] says whether what came back is not [None], the time is
    the next reading of the clock, and the two flags say whether the
    credentials are set.  The request goes out on the wire unless the
    library refuses the call before sending (an API key with CR, LF or
    leading whitespace); refused, nothing goes out and [mexc_connected] is
    false. *)
Theorem status_route_outcome (E : environment) (w w1 : world) (tr : MEXCTrader) :
  ensure_trader E w = (Ok (Some tr), w1) →
  match _generate_signature tr [(lit "timestamp", stamp E w1)] (stamp E w1) with
  | Raise _ =>
      fst (status_route E w) = Raise UnicodeEncodeError
      ∧ fst (serve E GetStatus w)
        = {| status := 500; payload := InternalServerError |}
      ∧ sent (snd (serve E GetStatus w)) = sent w1
      ∧ wire (snd (serve E GetStatus w)) = wire w1
  | Ok signature =>
      let c := RequestsGet (base_url tr ++ lit "/api/v3/account")
                 [(lit "timestamp", stamp E w1); (lit "signature", SStr signature)]
                 (request_headers tr) in
      let status_of connected :=
        {| status := 200;
           payload := StatusRunning connected
                        (clock_s E (S (ticks w1)))
                        (is_some (MEXC_API_KEY E))
                        (is_some (MEXC_SECRET_KEY E)) |} in
      fst (status_route E w)
      = Ok (status_of (negb (is_none (reply_result (exchange E c)))))
      ∧ sent (snd (status_route E w)) = sent w1 ++ [c]
      ∧ (exchange E c = Refused →
           wire (snd (status_route E w)) = wire w1
           ∧ fst (status_route E w) = Ok (status_of false))
      ∧ (exchange E c ≠ Refused →
           wire (snd (status_route E w)) = wire w1 ++ [c])
  end.
Proof.
  intros Hen. unfold serve. cbn [route].
  rewrite status_route_run, Hen, account_info_run.
  destruct (_generate_signature tr _ (stamp E w1)) as [signature|e] eqn:Hsig.
  - cbv zeta. split; [reflexivity|]. split; [reflexivity|].
    cbn [snd fst wire with_wire with_sent with_ticks after_op]. split.
    + intros H. rewrite (delivered_refused _ _ H), H, app_nil_r.
      split; reflexivity.
    + intros H. now rewrite (delivered_sent _ _ H).
  - apply generate_signature_exn in Hsig. subst e. repeat split.
Qed.

Lemma status_route_outcome_witness :
  fst (status_route bad_secret_env loaded) = Raise UnicodeEncodeError
  ∧ fst (serve bad_secret_env GetStatus loaded)
    = {| status := 500; payload := InternalServerError |}
  ∧ sent (snd (serve bad_secret_env GetStatus loaded)) = []
  ∧ wire (snd (serve bad_secret_env GetStatus loaded)) = [].
Proof.
  exact (status_route_outcome bad_secret_env loaded
           (with_trader (Some (MEXCTrader_init (lit "key") (lit "sec" ++ [0xDCFF])))
              loaded)
           (MEXCTrader_init (lit "key") (lit "sec" ++ [0xDCFF])) eq_refl).
Defined.

(** X15.  The two health checks can disagree: when the exchange answers
    with something that is not [None] but not truthy either (an empty
    object, an empty list, 0, false), /status reports [mexc_connected]
    true while /test answers 500 with the failure message. *)
Theorem status_and_test_disagree (E : environment) (w w1 : world)
    (tr : MEXCTrader) (r : http_reply) :
  ensure_trader E w = (Ok (Some tr), w1) →
  encodable (secret_key tr) = true →
  (∀ c, exchange E c = r) →
  truthy (reply_result r) = false →
  is_none (reply_result r) = false →
  fst (status_route E w)
  = Ok {| status := 200;
          payload := StatusRunning true (clock_s E (S (ticks w1)))
                       (is_some (MEXC_API_KEY E))
                       (is_some (MEXC_SECRET_KEY E)) |}
  ∧ fst (test_trade E w)
    = Ok {| status := 500; payload := ErrorBody (Text msg_test_failed) |}.
Proof.
  intros Hen Hs Hr Hfalsy Hsome.
  destruct (generate_signature_Ok _ _ _ (get_account_info_signable E tr w1 Hs))
    as (key & msg & _ & _ & Hsig).
  change (dict_set (lit "timestamp") (stamp E w1) [])
    with [(lit "timestamp", stamp E w1)] in Hsig.
  rewrite status_route_run, test_trade_run, Hen, account_info_run, Hsig.
  cbv zeta. cbn [fst]. rewrite Hr, Hfalsy, Hsome. split; reflexivity.
Qed.

Lemma status_and_test_disagree_witness :
  let E := sample_env (Some (JObj [])) in
  fst (status_route E loaded)
  = Ok {| status := 200;
          payload := StatusRunning true 1700000000 true true |}
  ∧ fst (test_trade E loaded)
    = Ok {| status := 500; payload := ErrorBody (Text msg_test_failed) |}.
Proof.
  intros E.
  apply (status_and_test_disagree E loaded (with_trader (Some sample_trader) loaded)
           sample_trader (Reply 200 (Some (JObj []))));
    try reflexivity.
Defined.

(** X16.  Of the four routes only /status can let an exception out, and
    only the UnicodeEncodeError of the signing step, before anything is
    sent: /, /webhook and /test always answer. *)
Theorem route_raises_only_status (E : environment) (r : request) (w w' : world)
    (e : exn) :
  route E r w = (Raise e, w') →
  r = GetStatus ∧ e = UnicodeEncodeError ∧ sent w' = sent w.
Proof.
  destruct (ensure_trader_Ok E w) as (o & w1 & Hen).
  assert (sent w1 = sent w) as Hs1.
  { revert Hen. rewrite ensure_trader_run.
    destruct (trader w), (configured_trader E); now intros [= _ <-]. }
  destruct r as [|body| |]; cbn [route].
  - discriminate.
  - destruct body as [e0| |fields].
    + rewrite webhook_unreadable. discriminate.
    + destruct o as [tr|].
      * rewrite (webhook_other E w w1 tr Hen). discriminate.
      * rewrite (webhook_no_trader E _ w w1) by (discriminate || exact Hen).
        discriminate.
    + destruct o as [tr|].
      * rewrite (webhook_run E fields w w1 tr Hen).
        destruct (spec_route _ _ _) as [[op message]|]; [|discriminate].
        destruct (perform E tr op w1) as [[result|e0] w0]; discriminate.
      * rewrite (webhook_no_trader E _ w w1) by (discriminate || exact Hen).
        discriminate.
  - rewrite status_route_run, Hen. destruct o as [tr|]; [|discriminate].
    rewrite account_info_run.
    destruct (_generate_signature tr _ (stamp E w1)) as [signature|e0] eqn:Hsig;
      [discriminate|].
    apply generate_signature_exn in Hsig. subst e0.
    intros [= <- <-]. repeat split. exact Hs1.
  - rewrite test_trade_run, Hen. destruct o as [tr|]; [|discriminate].
    destruct (perform E tr GetAccountInfo w1) as [[result|e0] w0]; discriminate.
Qed.

Lemma route_raises_only_status_witness :
  GetStatus = GetStatus ∧ UnicodeEncodeError = UnicodeEncodeError
  ∧ sent (snd (route bad_secret_env GetStatus loaded)) = sent loaded.
Proof.
  exact (route_raises_only_status bad_secret_env GetStatus loaded
           (snd (route bad_secret_env GetStatus loaded)) UnicodeEncodeError eq_refl).
Defined.

(** ** Initialization, at start or on first use *)

(** X17.  [initialize_trader] returns [True] and sets the trader exactly
    when both credentials are set and not empty (an empty string counts as
    missing); otherwise it returns [False] and leaves the world as it was.
    Running it again changes nothing. *)
Theorem initialize_trader_outcome (E : environment) (w : world) :
  initialize_trader E w
  = match configured_trader E with
    | Some t => (Ok true, with_trader (Some t) w)
    | None => (Ok false, w)
    end
  ∧ (configured_trader E = None
     ↔ MEXC_API_KEY E = None ∨ MEXC_API_KEY E = Some []
       ∨ MEXC_SECRET_KEY E = None ∨ MEXC_SECRET_KEY E = Some [])
  ∧ snd (initialize_trader E (snd (initialize_trader E w)))
    = snd (initialize_trader E w).
Proof.
  unfold initialize_trader, configured_trader.
  destruct (MEXC_API_KEY E) as [[|k0 k]|], (MEXC_SECRET_KEY E) as [[|s0 s]|];
    cbn [configured andb]; (split; [reflexivity|]); (split; [|reflexivity]);
    split; auto; try discriminate;
    intros [H|[H|[H|H]]]; discriminate.
Qed.

Lemma with_trader_id (t : MEXCTrader) (w : world) :
  trader w = Some t → with_trader (Some t) w = w.
Proof. destruct w. cbn. now intros ->. Qed.

Lemma ensure_trader_with (E : environment) (t : MEXCTrader) (w : world) :
  configured_trader E = Some t →
  trader w = None ∨ trader w = Some t →
  ensure_trader E w = (Ok (Some t), with_trader (Some t) w).
Proof.
  intros Hc Ht. rewrite ensure_trader_run.
  destruct Ht as [->| Ht]; [now rewrite Hc|].
  now rewrite Ht, (with_trader_id t w Ht).
Qed.

(** A route that looks at the trader runs as it does once the trader is
    there. *)
Lemma route_after_ensure (E : environment) (r : request) (w w1 : world)
    (t : MEXCTrader) :
  ensure_trader E w = (Ok (Some t), w1) →
  ensure_trader E w1 = (Ok (Some t), w1) →
  r ≠ GetHome → (∀ e, r ≠ PostWebhook (BodyUnreadable e)) →
  route E r w = route E r w1.
Proof.
  intros Hen Hen1 Hh Hu. destruct r as [|body| |]; cbn [route].
  - congruence.
  - destruct body as [e| |fields].
    + now destruct (Hu e).
    + now rewrite (webhook_other E w w1 t Hen), (webhook_other E w1 w1 t Hen1).
    + now rewrite (webhook_run E fields w w1 t Hen),
        (webhook_run E fields w1 w1 t Hen1).
  - now rewrite !status_route_run, Hen, Hen1.
  - now rewrite !test_trade_run, Hen, Hen1.
Qed.

Lemma serve_with_trader (E : environment) (r : request) (w : world) (t : MEXCTrader) :
  configured_trader E = Some t →
  trader w = None ∨ trader w = Some t →
  fst (serve E r (with_trader (Some t) w)) = fst (serve E r w)
  ∧ snd (serve E r (with_trader (Some t) w))
    = with_trader (Some t) (snd (serve E r w))
  ∧ (trader (snd (serve E r w)) = None ∨ trader (snd (serve E r w)) = Some t).
Proof.
  intros Hc Ht.
  pose proof (ensure_trader_with E t w Hc Ht) as Hen.
  pose proof (ensure_trader_with E t (with_trader (Some t) w) Hc
                (or_intror eq_refl)) as Hen1.
  change (with_trader (Some t) (with_trader (Some t) w))
    with (with_trader (Some t) w) in Hen1.
  assert (r = GetHome ∨ (∃ e, r = PostWebhook (BodyUnreadable e))
          ∨ (r ≠ GetHome ∧ ∀ e, r ≠ PostWebhook (BodyUnreadable e))) as Hr.
  { destruct r as [|[e| |fields]| |]; eauto; right; right; split; discriminate. }
  destruct Hr as [->|[[e ->]|[Hh Hu]]].
  - unfold serve. cbn. auto.
  - unfold serve. cbn [route]. rewrite !webhook_unreadable. cbn. auto.
  - pose proof (serve_trader_kept E r (with_trader (Some t) w) t eq_refl) as Hk.
    unfold serve in *.
    rewrite (route_after_ensure E r w _ t Hen Hen1 Hh Hu).
    destruct (route E r (with_trader (Some t) w)) as [[resp|e] u]; cbn [fst snd] in *;
      rewrite (with_trader_id t u Hk); auto.
Qed.

Lemma serve_all_with_trader (E : environment) (rs : list request) (w : world)
    (t : MEXCTrader) :
  configured_trader E = Some t →
  trader w = None ∨ trader w = Some t →
  fst (serve_all E rs (with_trader (Some t) w)) = fst (serve_all E rs w).
Proof.
  intros Hc. revert w. induction rs as [|r rs IH]; intros w Ht; [reflexivity|].
  cbn [serve_all].
  destruct (serve_with_trader E r w t Hc Ht) as (Hf & Hs & Ht').
  destruct (serve E r (with_trader (Some t) w)) as [resp1 u1].
  destruct (serve E r w) as [resp u]. cbn [fst snd] in *. subst resp1 u1.
  specialize (IH u Ht').
  destruct (serve_all E rs (with_trader (Some t) u)) as [resps1 v1].
  destruct (serve_all E rs u) as [resps v]. cbn [fst] in *. now subst.
Qed.

Lemma initialize_trader_run_aux (E : environment) :
  (∃ t, configured_trader E = Some t
        ∧ snd (initialize_trader E loaded) = with_trader (Some t) loaded)
  ∨ snd (initialize_trader E loaded) = loaded.
Proof.
  unfold initialize_trader, configured_trader.
  destruct (MEXC_API_KEY E) as [[|k0 k]|], (MEXC_SECRET_KEY E) as [[|s0 s]|];
    cbn [configured andb]; try (right; reflexivity).
  left. eexists. split; reflexivity.
Qed.

(** X18.  Initialization on first use cannot be told from initialization
    at start: a process that ran [initialize_trader] when it started
    answers every sequence of requests exactly like one that did not. *)
Theorem lazy_initialization_transparent (E : environment) (rs : list request) :
  fst (serve_all E rs (started E)) = fst (serve_all E rs loaded).
Proof.
  unfold started.
  destruct (initialize_trader_run_aux E) as [[t [Hc ->]]| ->]; [|reflexivity].
  apply (serve_all_with_trader E rs loaded t Hc). now left.
Qed.

(** ** What an operation leaves in the store, and what a 200 means *)

Lemma dict_get_app_Some (k : str) (v : scalar) (d d' : dict) :
  dict_get k d = Some v → dict_get k (d ++ d') = Some v.
Proof. intros H. now rewrite dict_get_app, H. Qed.

(** X19.  Every operation works on a dict of its own: it adds exactly one
    object to the store, which holds the operation's parameters and the
    timestamp, and leaves every object that was there as it was.  So the
    in-place writes of [_send_request] never reach a dict of another
    request. *)
Theorem perform_fresh_dict (E : environment) (self : MEXCTrader)
    (op : client_call) (w : world) :
  ∃ d,
    heap (snd (perform E self op w)) = heap w ++ [d]
    ∧ (∀ k v, dict_get k (op_params op) = Some v → dict_get k d = Some v)
    ∧ dict_get (lit "timestamp") d = Some (stamp E w)
    ∧ (∀ p d0, heap w !! p = Some d0 →
         heap (snd (perform E self op w)) !! p = Some d0).
Proof.
  rewrite perform_run.
  assert (∀ rest, dict_get (lit "timestamp")
                    (op_params op ++ (lit "timestamp", stamp E w) :: rest)
                  = Some (stamp E w)) as Hts.
  { intros rest. destruct op; reflexivity. }
  destruct (_generate_signature self _ (stamp E w)) as [signature|e].
  - cbv zeta. eexists.
    split; [destruct (op_call self op _); reflexivity|].
    split; [intros k v Hk; now apply dict_get_app_Some|].
    split; [apply Hts|].
    intros p d0 Hp. destruct (op_call self op _); cbn [snd heap with_sent with_wire after_op];
      rewrite lookup_app_l; eauto using lookup_lt_Some.
  - eexists. split; [reflexivity|].
    split; [intros k v Hk; now apply dict_get_app_Some|].
    split; [apply Hts|].
    intros p d0 Hp. cbn [snd heap after_op].
    rewrite lookup_app_l; eauto using lookup_lt_Some.
Qed.

(** X20.  The webhook always answers, with 200, 400 or 500, and a 200 is
    never made up: it is given only for an object payload routed to
    [place_order], after exactly one POST has been made and has gone out
    on the wire, and the [mexc_response] it relays is what the client read
    from the exchange's answer to that POST.  A 400 is given only for an
    object payload whose action is not recognized, and then no call has
    been made and nothing has gone out. *)
Theorem webhook_answers (E : environment) (body : webhook_body) (w : world) :
  ∃ resp w',
    webhook E body w = (Ok resp, w')
    ∧ (status resp = 200%Z ∨ status resp = 400%Z ∨ status resp = 500%Z)
    ∧ (status resp = 200%Z →
         ∃ fields symbol side quantity order_type message c,
           body = BodyObject fields
           ∧ spec_route (action_of fields) (symbol_of fields) (quantity_of fields)
             = Some (PlaceOrder symbol side quantity order_type, message)
           ∧ (∃ url params headers, c = RequestsPost url params headers)
           ∧ sent w' = sent w ++ [c]
           ∧ wire w' = wire w ++ [c]
           ∧ truthy (reply_result (exchange E c)) = true
           ∧ payload resp = TradeSuccess message (reply_result (exchange E c)))
    ∧ (status resp = 400%Z →
         ∃ fields,
           body = BodyObject fields
           ∧ spec_route (action_of fields) (symbol_of fields) (quantity_of fields)
             = None
           ∧ sent w' = sent w
           ∧ wire w' = wire w).
Proof.
  destruct (ensure_trader_Ok E w) as (o & w1 & Hen).
  assert (sent w1 = sent w ∧ wire w1 = wire w) as [Hs1 Hw1].
  { revert Hen. rewrite ensure_trader_run.
    destruct (trader w), (configured_trader E); now intros [= _ <-]. }
  destruct body as [e| |fields].
  - rewrite webhook_unreadable. eexists _, _. split; [reflexivity|].
    cbn [status]. split; [auto|]. split; discriminate.
  - destruct o as [tr|];
      [rewrite (webhook_other E w w1 tr Hen)
      |rewrite (webhook_no_trader E _ w w1) by (discriminate || exact Hen)];
      eexists _, _; (split; [reflexivity|]); cbn [status];
      (split; [auto|]); split; discriminate.
  - destruct o as [tr|];
      [|rewrite (webhook_no_trader E _ w w1) by (discriminate || exact Hen);
        eexists _, _; (split; [reflexivity|]); cbn [status];
        (split; [auto|]); split; discriminate].
    rewrite (webhook_run E fields w w1 tr Hen).
    destruct (spec_route _ _ _) as [[op message]|] eqn:Hr.
    + rewrite perform_run.
      destruct (_generate_signature tr _ (stamp E w1)) as [signature|e];
        [|eexists _, _; (split; [reflexivity|]); cbn [status];
          (split; [auto|]); split; discriminate].
      cbv zeta.
      destruct op as [symbol side quantity order_type| |symbol]; cbn [op_call].
      * match goal with |- context [reply_result (exchange E ?c0)] =>
          set (c := c0) end.
        unfold report. destruct (truthy (reply_result (exchange E c))) eqn:Ht;
          eexists _, _; (split; [reflexivity|]); cbn [status];
          (split; [auto|]); (split; [|discriminate]); [|discriminate].
        intros _. exists fields, symbol, side, quantity, order_type, message, c.
        repeat split; try assumption.
        -- subst c. eexists _, _, _. reflexivity.
        -- cbn [sent with_sent with_wire after_op]. now rewrite Hs1.
        -- cbn [wire with_sent with_wire after_op]. rewrite Hw1. f_equal.
           apply delivered_sent. intros Href. now rewrite Href in Ht.
      * match goal with |- context [reply_result (exchange E ?c0)] =>
          set (c := c0) end.
        exfalso. unfold spec_route in Hr.
        destruct (is_in _ [lit "buy"; lit "long"]); [discriminate|].
        destruct (is_in _ [lit "sell"; lit "short"]); [discriminate|].
        destruct (is_in _ [lit "close_long"; lit "close_short"; lit "close"]);
          discriminate.
      * unfold report. cbn [truthy scalar_truthy].
        eexists _, _. split; [reflexivity|]. cbn [status].
        split; [auto|]. split; discriminate.
    + eexists _, _. split; [reflexivity|]. cbn [status].
      split; [auto|]. split; [discriminate|].
      intros _. exists fields. auto.
Qed.
